(** * prometheus_fastapi_instrumentator.metrics

    A shallow embedding of [metrics.py]: the [Info] record, the label
    selector [_build_label_attribute_names] and the five metric functions
    [latency], [request_size], [response_size], [combined_size] and
    [default], together with the properties their description states.

    Python objects the module only passes around are modelled by what the
    module does with them:
    - a header value is a latin-1 decoded [str]: one [ascii] per code point;
    - [int(...)] is the builtin applied to [None], an [int] or such a [str];
    - an exception is a constructor of [Exn], and a computation that may
      raise after it changed the metrics keeps the changes made so far. *)

From Stdlib Require Import List String Ascii ZArith Bool Lia Floats.
Import ListNotations.
Local Open Scope string_scope.
Local Open Scope list_scope.

(* Decimal literals are rounded to the nearest binary64 value, as Python
   rounds them. *)
#[local] Set Warnings "-inexact-float".

(** ** Exceptions and results *)

Inductive Exn : Type :=
| IndexError
| AttributeError
| ValueError
| TypeError.

Inductive Result (A : Type) : Type :=
| Ok (a : A)
| Raise (e : Exn).

Arguments Ok {A} a.
Arguments Raise {A} e.

(** ** Python values read from headers, and the builtin [int] *)

Inductive PyVal : Type :=
| PyNone
| PyStr (s : string)
| PyInt (z : Z).

(** Truth value of an object, as [if x:] and [x and y] test it. *)
Definition truthy (v : PyVal) : bool :=
  match v with
  | PyNone => false
  | PyStr s => negb (s =? "")
  | PyInt z => negb (z =? 0)%Z
  end.

Definition is_not_None (v : PyVal) : bool :=
  match v with
  | PyNone => false
  | _ => true
  end.

Module PyInt.

(** White space that [int] strips on both sides of a latin-1 string:
    tab to carriage return, space, NEL and the no-break space. *)
Definition isspace (c : ascii) : bool :=
  let n := nat_of_ascii c in
  ((9 <=? n) && (n <=? 13) || (n =? 32) || (n =? 133) || (n =? 160))%nat.

Definition digit (c : ascii) : option Z :=
  let n := nat_of_ascii c in
  if ((48 <=? n) && (n <=? 57))%nat then Some (Z.of_nat n - 48)%Z else None.

Fixpoint lstrip (s : string) : string :=
  match s with
  | String c s' => if isspace c then lstrip s' else s
  | EmptyString => s
  end.

Fixpoint all_space (s : string) : bool :=
  match s with
  | String c s' => isspace c && all_space s'
  | EmptyString => true
  end.

(** Decimal digits, a single underscore allowed between two digits, then
    optional white space.  [prev] tells that the character just read was
    a digit. *)
Fixpoint digits (acc : Z) (prev : bool) (s : string) : option Z :=
  match s with
  | EmptyString => if prev then Some acc else None
  | String c s' =>
      match digit c with
      | Some d => digits (10 * acc + d)%Z true s'
      | None =>
          if (c =? "_")%char then
            if prev then digits acc false s' else None
          else if prev && all_space s then Some acc
          else None
      end
  end.

(** [int(s)] in base ten; [None] stands for [ValueError]. *)
Definition of_str (s : string) : option Z :=
  match lstrip s with
  | String "+" r => digits 0 false r
  | String "-" r => option_map Z.opp (digits 0 false r)
  | r => digits 0 false r
  end.

End PyInt.

(** [int(v)]: an [int] is returned as it is, a [str] is parsed, [None] is
    a [TypeError]. *)
Definition int (v : PyVal) : Result Z :=
  match v with
  | PyInt z => Ok z
  | PyStr s =>
      match PyInt.of_str s with
      | Some z => Ok z
      | None => Raise ValueError
      end
  | PyNone => Raise TypeError
  end.

(** ** Starlette headers, requests and responses *)

(** The raw header list: order and duplicates matter, [get] returns the
    value of the first entry whose raw name is the lower-cased key. *)
Definition Headers : Type := list (string * string).

Definition lower_ascii (c : ascii) : ascii :=
  let n := nat_of_ascii c in
  if ((65 <=? n) && (n <=? 90)
      || (192 <=? n) && (n <=? 222) && negb (n =? 215))%nat
  then ascii_of_nat (n + 32)
  else c.

Fixpoint lower (s : string) : string :=
  match s with
  | String c s' => String (lower_ascii c) (lower s')
  | EmptyString => EmptyString
  end.

Fixpoint headers_lookup (h : Headers) (raw_key : string) : option string :=
  match h with
  | [] => None
  | (k, v) :: h' => if k =? raw_key then Some v else headers_lookup h' raw_key
  end.

(** [headers.get(key, default)] *)
Definition headers_get (h : Headers) (key : string) (default : PyVal) : PyVal :=
  match headers_lookup h (lower key) with
  | Some v => PyStr v
  | None => default
  end.

Module Request.
Record t : Type := Build { headers : Headers }.
End Request.

Module Response.
Record t : Type := Build { headers : Headers }.
End Response.

(** ** Info *)

Record Info : Type := Build_Info' {
  request : Request.t;
  response : option Response.t;
  method : string;
  modified_handler : string;
  modified_status : string;
  modified_duration : float
}.

(** What an attribute of an [Info] can hold. *)
Inductive Attr : Type :=
| AttrRequest (r : Request.t)
| AttrResponse (r : option Response.t)
| AttrStr (s : string)
| AttrFloat (f : float).

(** [getattr(info, name)] *)
Definition getattr (info : Info) (name : string) : Result Attr :=
  if name =? "request" then Ok (AttrRequest (request info))
  else if name =? "response" then Ok (AttrResponse (response info))
  else if name =? "method" then Ok (AttrStr (method info))
  else if name =? "modified_handler" then Ok (AttrStr (modified_handler info))
  else if name =? "modified_status" then Ok (AttrStr (modified_status info))
  else if name =? "modified_duration" then Ok (AttrFloat (modified_duration info))
  else Raise AttributeError.

(** [info.response.headers]: an absent response has no attribute
    [headers]. *)
Definition response_headers (info : Info) : Result Headers :=
  match response info with
  | Some r => Ok (Response.headers r)
  | None => Raise AttributeError
  end.

(** ** The label selector *)

Definition _build_label_attribute_names
    (should_include_handler should_include_method should_include_status : bool)
  : list string * list string :=
  let label_names : list string := [] in
  let info_attribute_names : list string := [] in
  let '(label_names, info_attribute_names) :=
    if should_include_handler
    then (label_names ++ ["handler"], info_attribute_names ++ ["modified_handler"])
    else (label_names, info_attribute_names) in
  let '(label_names, info_attribute_names) :=
    if should_include_method
    then (label_names ++ ["method"], info_attribute_names ++ ["method"])
    else (label_names, info_attribute_names) in
  let '(label_names, info_attribute_names) :=
    if should_include_status
    then (label_names ++ ["status"], info_attribute_names ++ ["modified_status"])
    else (label_names, info_attribute_names) in
  (label_names, info_attribute_names).

(** ** Numbers and bucket tuples *)

(** An element of a bucket tuple or an observed amount: a Python [int] or
    [float]. *)
Inductive Num : Type :=
| NInt (z : Z)
| NFloat (f : float).

(** [float("inf")] *)
Definition float_inf : Num := NFloat infinity.

(** [x != float("inf")]: an [int] never equals it, a [float] is compared
    as IEEE 754 does (a NaN differs from everything). *)
Definition ne_float_inf (x : Num) : bool :=
  match x with
  | NInt _ => true
  | NFloat f => negb (PrimFloat.eqb f infinity)
  end.

(** [t[-1]] *)
Fixpoint item_last {A : Type} (t : list A) : Result A :=
  match t with
  | [] => Raise IndexError
  | [x] => Ok x
  | _ :: t' => item_last t'
  end.

(** The normalisation that opens [latency], and twice [default], on its
    own: [if buckets[-1] != float("inf"): buckets = buckets + (float("inf"),)]. *)
Definition normalize_buckets (buckets : list Num) : Result (list Num) :=
  match item_last buckets with
  | Ok b => if ne_float_inf b then Ok (buckets ++ [float_inf]) else Ok buckets
  | Raise e => Raise e
  end.

(** [Histogram.DEFAULT_BUCKETS] of the client library. *)
Definition DEFAULT_BUCKETS : list Num :=
  [NFloat 0.005; NFloat 0.01; NFloat 0.025; NFloat 0.05; NFloat 0.075;
   NFloat 0.1; NFloat 0.25; NFloat 0.5; NFloat 0.75; NFloat 1.0;
   NFloat 2.5; NFloat 5.0; NFloat 7.5; NFloat 10.0; float_inf]%float.

(** The defaults of [default]'s two bucket parameters. *)
Definition default_latency_highr_buckets : list Num :=
  [NFloat 0.01; NFloat 0.025; NFloat 0.05; NFloat 0.075; NFloat 0.1;
   NFloat 0.25; NFloat 0.5; NFloat 0.75; NInt 1; NFloat 1.5; NInt 2;
   NFloat 2.5; NInt 3; NFloat 3.5; NInt 4; NFloat 4.5; NInt 5; NFloat 7.5;
   NInt 10; NInt 30; NInt 60]%float.

Definition default_latency_lowr_buckets : list Num :=
  [NFloat 0.1; NFloat 0.5; NInt 1]%float.

(** ** The metrics client

    The client library is outside the module.  Its state is modelled by the
    collectors registered so far and by the log of the recorded samples; a
    metric with label names is observed through a child bound by [labels],
    a metric without label names is observed directly. *)

Inductive MetricKind : Type :=
| KCounter
| KHistogram
| KSummary.

Record Metric : Type := Build_Metric' {
  kind : MetricKind;
  name : string;
  documentation : string;
  labelnames : list string;
  buckets : option (list Num);
  namespace : string;
  subsystem : string
}.

(** What a sample is recorded on: the metric itself, or the child that
    [labels] bound to label values. *)
Inductive Series : Type :=
| Unlabelled (m : Metric)
| Labelled (m : Metric) (labelvalues : list Attr).

Inductive Op : Type :=
| Inc
| Observe (amount : Num).

Record Registry : Type := Build_Registry' {
  collectors : list Metric;
  samples : list (Series * Op)
}.

(** Computations that read and change the registry and may raise. *)
Definition M (A : Type) : Type := Registry -> Result A * Registry.

Definition ret {A : Type} (a : A) : M A := fun r => (Ok a, r).

Definition raise {A : Type} (e : Exn) : M A := fun r => (Raise e, r).

Definition bind {A B : Type} (c : M A) (k : A -> M B) : M B :=
  fun r =>
    match c r with
    | (Ok a, r') => k a r'
    | (Raise e, r') => (Raise e, r')
    end.

Definition lift {A : Type} (x : Result A) : M A :=
  match x with
  | Ok a => ret a
  | Raise e => raise e
  end.

Notation "x <- c1 ;; c2" := (bind c1 (fun x => c2))
  (at level 61, c1 at next level, right associativity).
Notation "c1 ;; c2" := (bind c1 (fun _ => c2))
  (at level 61, right associativity).

(** The registry after one more sample, and after one more collector. *)
Definition recorded (r : Registry) (s : Series) (o : Op) : Registry :=
  {| collectors := collectors r; samples := samples r ++ [(s, o)] |}.

Definition registered (r : Registry) (m : Metric) : Registry :=
  {| collectors := collectors r ++ [m]; samples := samples r |}.

Definition record (s : Series) (o : Op) : M unit :=
  fun r => (Ok tt, recorded r s o).

Definition nonempty {A : Type} (l : list A) : bool :=
  match l with
  | [] => false
  | _ :: _ => true
  end.

(** [metric.labels], applied to the label values: refused on a metric
    without label names and when the number of values is not the number
    of names.  The child it returns holds no sample yet; which children a
    metric has is not part of the modelled state, only the samples are. *)
Definition labels (m : Metric) (labelvalues : list Attr) : M Series :=
  if negb (nonempty (labelnames m)) then raise ValueError
  else if negb (List.length labelvalues =? List.length (labelnames m))%nat then raise ValueError
  else ret (Labelled m labelvalues).

(** A sample can be recorded on a child, and on a metric that has no label
    names. *)
Definition observable (s : Series) : bool :=
  match s with
  | Unlabelled m => negb (nonempty (labelnames m))
  | Labelled _ _ => true
  end.

(** [series.observe(amount)] *)
Definition observe (s : Series) (amount : Num) : M unit :=
  if observable s then record s (Observe amount) else raise ValueError.

(** [series.inc()] *)
Definition inc (s : Series) : M unit :=
  if observable s then record s Inc else raise ValueError.

(** The loop
    [for attribute_name in info_attribute_names:
         label_values.append(getattr(info, attribute_name))]. *)
Fixpoint append_label_values (info : Info) (info_attribute_names : list string)
    (label_values : list Attr) : Result (list Attr) :=
  match info_attribute_names with
  | [] => Ok label_values
  | attribute_name :: rest =>
      match getattr info attribute_name with
      | Ok v => append_label_values info rest (label_values ++ [v])
      | Raise e => Raise e
      end
  end.

(** ** The closures

    Each metric function returns its inner function [instrumentation]; the
    variables it captures ([METRIC], [label_names], [info_attribute_names])
    are the leading parameters here. *)

Definition latency_instrumentation (METRIC : Metric)
    (label_names info_attribute_names : list string) (info : Info) : M unit :=
  if nonempty label_names then
    label_values <- lift (append_label_values info info_attribute_names []) ;;
    child <- labels METRIC label_values ;;
    observe child (NFloat (modified_duration info))
  else
    observe (Unlabelled METRIC) (NFloat (modified_duration info)).

Definition request_size_instrumentation (METRIC : Metric)
    (label_names info_attribute_names : list string) (info : Info) : M unit :=
  let content_length :=
    headers_get (Request.headers (request info)) "Content-Length" PyNone in
  if is_not_None content_length then
    if nonempty label_names then
      label_values <- lift (append_label_values info info_attribute_names []) ;;
      child <- labels METRIC label_values ;;
      n <- lift (int content_length) ;;
      observe child (NInt n)
    else
      n <- lift (int content_length) ;;
      observe (Unlabelled METRIC) (NInt n)
  else ret tt.

Definition response_size_instrumentation (METRIC : Metric)
    (label_names info_attribute_names : list string) (info : Info) : M unit :=
  headers <- lift (response_headers info) ;;
  let content_length := headers_get headers "Content-Length" PyNone in
  if is_not_None content_length then
    if nonempty label_names then
      label_values <- lift (append_label_values info info_attribute_names []) ;;
      child <- labels METRIC label_values ;;
      n <- lift (int content_length) ;;
      observe child (NInt n)
    else
      n <- lift (int content_length) ;;
      observe (Unlabelled METRIC) (NInt n)
  else ret tt.

Definition combined_size_instrumentation (METRIC : Metric)
    (label_names info_attribute_names : list string) (info : Info) : M unit :=
  let request_cl :=
    headers_get (Request.headers (request info)) "Content-Length" PyNone in
  headers <- lift (response_headers info) ;;
  let response_cl := headers_get headers "Content-Length" PyNone in
  content_length <-
    (if truthy request_cl && truthy response_cl then
       a <- lift (int request_cl) ;;
       b <- lift (int response_cl) ;;
       ret (PyInt (a + b))
     else if truthy request_cl then
       a <- lift (int request_cl) ;; ret (PyInt a)
     else if truthy response_cl then
       b <- lift (int response_cl) ;; ret (PyInt b)
     else ret PyNone) ;;
  if is_not_None content_length then
    if nonempty label_names then
      label_values <- lift (append_label_values info info_attribute_names []) ;;
      child <- labels METRIC label_values ;;
      n <- lift (int content_length) ;;
      observe child (NInt n)
    else
      n <- lift (int content_length) ;;
      observe (Unlabelled METRIC) (NInt n)
  else ret tt.

Definition default_instrumentation
    (TOTAL IN_SIZE OUT_SIZE LATENCY_HIGHR LATENCY_LOWR : Metric)
    (info : Info) : M unit :=
  total <- labels TOTAL [AttrStr (method info); AttrStr (modified_status info);
                         AttrStr (modified_handler info)] ;;
  inc total ;;
  in_size <- labels IN_SIZE [AttrStr (modified_handler info)] ;;
  n <- lift (int (headers_get (Request.headers (request info))
                    "Content-Length" (PyInt 0))) ;;
  observe in_size (NInt n) ;;
  out_size <- labels OUT_SIZE [AttrStr (modified_handler info)] ;;
  headers <- lift (response_headers info) ;;
  n <- lift (int (headers_get headers "Content-Length" (PyInt 0))) ;;
  observe out_size (NInt n) ;;
  observe (Unlabelled LATENCY_HIGHR) (NFloat (modified_duration info)) ;;
  lowr <- labels LATENCY_LOWR [AttrStr (modified_handler info)] ;;
  observe lowr (NFloat (modified_duration info)).

(** ** The metric functions *)

Section MetricFunctions.

(** The client library decides whether a new collector is admitted to
    the registry (it refuses a name that is already taken, an invalid
    name, unsorted buckets); the metric functions are verified for every
    such policy. *)
Variable admits : list Metric -> Metric -> bool.

(** Constructing a metric registers it, or raises [ValueError] and
    leaves the registry as it was. *)
Definition register (m : Metric) : M Metric :=
  fun r =>
    if admits (collectors r) m
    then (Ok m, registered r m)
    else (Raise ValueError, r).

Definition Counter (name documentation : string) (labelnames : list string)
    (namespace subsystem : string) : M Metric :=
  register (Build_Metric' KCounter name documentation labelnames None
              namespace subsystem).

Definition Summary (name documentation : string) (labelnames : list string)
    (namespace subsystem : string) : M Metric :=
  register (Build_Metric' KSummary name documentation labelnames None
              namespace subsystem).

Definition Histogram (name documentation : string) (labelnames : list string)
    (buckets : list Num) (namespace subsystem : string) : M Metric :=
  register (Build_Metric' KHistogram name documentation labelnames
              (Some buckets) namespace subsystem).

Definition latency (metric_name metric_doc metric_namespace metric_subsystem : string)
    (should_include_handler should_include_method should_include_status : bool)
    (buckets : list Num) : M (Info -> M unit) :=
  last <- lift (item_last buckets) ;;
  let buckets :=
    if ne_float_inf last then buckets ++ [float_inf] else buckets in
  let '(label_names, info_attribute_names) :=
    _build_label_attribute_names
      should_include_handler should_include_method should_include_status in
  METRIC <-
    (if nonempty label_names then
       Histogram metric_name metric_doc label_names buckets
         metric_namespace metric_subsystem
     else
       Histogram metric_name metric_doc [] buckets
         metric_namespace metric_subsystem) ;;
  ret (latency_instrumentation METRIC label_names info_attribute_names).

Definition request_size (metric_name metric_doc metric_namespace metric_subsystem : string)
    (should_include_handler should_include_method should_include_status : bool)
  : M (Info -> M unit) :=
  let '(label_names, info_attribute_names) :=
    _build_label_attribute_names
      should_include_handler should_include_method should_include_status in
  METRIC <-
    (if nonempty label_names then
       Summary metric_name metric_doc label_names
         metric_namespace metric_subsystem
     else
       Summary metric_name metric_doc [] metric_namespace metric_subsystem) ;;
  ret (request_size_instrumentation METRIC label_names info_attribute_names).

Definition response_size (metric_name metric_doc metric_namespace metric_subsystem : string)
    (should_include_handler should_include_method should_include_status : bool)
  : M (Info -> M unit) :=
  let '(label_names, info_attribute_names) :=
    _build_label_attribute_names
      should_include_handler should_include_method should_include_status in
  METRIC <-
    (if nonempty label_names then
       Summary metric_name metric_doc label_names
         metric_namespace metric_subsystem
     else
       Summary metric_name metric_doc [] metric_namespace metric_subsystem) ;;
  ret (response_size_instrumentation METRIC label_names info_attribute_names).

Definition combined_size (metric_name metric_doc metric_namespace metric_subsystem : string)
    (should_include_handler should_include_method should_include_status : bool)
  : M (Info -> M unit) :=
  let '(label_names, info_attribute_names) :=
    _build_label_attribute_names
      should_include_handler should_include_method should_include_status in
  METRIC <-
    (if nonempty label_names then
       Summary metric_name metric_doc label_names
         metric_namespace metric_subsystem
     else
       Summary metric_name metric_doc [] metric_namespace metric_subsystem) ;;
  ret (combined_size_instrumentation METRIC label_names info_attribute_names).

Definition default (metric_namespace metric_subsystem : string)
    (latency_highr_buckets latency_lowr_buckets : list Num)
  : M (Info -> M unit) :=
  last <- lift (item_last latency_highr_buckets) ;;
  let latency_highr_buckets :=
    if ne_float_inf last then latency_highr_buckets ++ [float_inf]
    else latency_highr_buckets in
  last <- lift (item_last latency_lowr_buckets) ;;
  let latency_lowr_buckets :=
    if ne_float_inf last then latency_lowr_buckets ++ [float_inf]
    else latency_lowr_buckets in
  TOTAL <-
    Counter "http_requests_total"
      "Total number of requests by method, status and handler."
      ["method"; "status"; "handler"] metric_namespace metric_subsystem ;;
  IN_SIZE <-
    Summary "http_request_size_bytes"
      "Content length of incoming requests by handler. Only value of header is respected. Otherwise ignored. No percentile calculated. "
      ["handler"] metric_namespace metric_subsystem ;;
  OUT_SIZE <-
    Summary "http_response_size_bytes"
      "Content length of outgoing responses by handler. Only value of header is respected. Otherwise ignored. No percentile calculated. "
      ["handler"] metric_namespace metric_subsystem ;;
  LATENCY_HIGHR <-
    Histogram "http_request_duration_highr_seconds"
      "Latency with many buckets but no API specific labels. Made for more accurate percentile calculations. "
      [] latency_highr_buckets metric_namespace metric_subsystem ;;
  LATENCY_LOWR <-
    Histogram "http_request_duration_seconds"
      "Latency with only few buckets by handler. Made to be only used if aggregation by handler is important. "
      ["handler"] latency_lowr_buckets metric_namespace metric_subsystem ;;
  ret (default_instrumentation TOTAL IN_SIZE OUT_SIZE LATENCY_HIGHR LATENCY_LOWR).

End MetricFunctions.

(** A registry policy of the kind the client library applies: a collector
    is refused when its full name is already registered. *)
Definition full_name (m : Metric) : string :=
  ((if namespace m =? "" then "" else namespace m ++ "_") ++
   (if subsystem m =? "" then "" else subsystem m ++ "_") ++ name m)%string.

Definition unique_names (registered : list Metric) (m : Metric) : bool :=
  negb (existsb (fun c => full_name c =? full_name m) registered).

Definition empty_registry : Registry :=
  {| collectors := []; samples := [] |}.

(** ** Vocabulary of the statements *)

(** The label values a closure binds for the selected labels, in the
    order handler, method, status. *)
Definition selected_values (h m s : bool) (info : Info) : list Attr :=
  (if h then [AttrStr (modified_handler info)] else []) ++
  (if m then [AttrStr (method info)] else []) ++
  (if s then [AttrStr (modified_status info)] else []).

(** The series a closure built with the flags [h], [m], [s] records on:
    the metric itself when no label is selected, else its child. *)
Definition bound_series (METRIC : Metric) (h m s : bool) (info : Info) : Series :=
  if h || m || s then Labelled METRIC (selected_values h m s info)
  else Unlabelled METRIC.

(** The [Info] field a label name stands for. *)
Definition label_value (info : Info) (label : string) : Attr :=
  if label =? "handler" then AttrStr (modified_handler info)
  else if label =? "method" then AttrStr (method info)
  else AttrStr (modified_status info).

Definition summary_of (metric_name metric_doc metric_namespace metric_subsystem : string)
    (h m s : bool) : Metric :=
  Build_Metric' KSummary metric_name metric_doc
    (fst (_build_label_attribute_names h m s)) None
    metric_namespace metric_subsystem.

Definition histogram_of (metric_name metric_doc metric_namespace metric_subsystem : string)
    (h m s : bool) (buckets : list Num) : Metric :=
  Build_Metric' KHistogram metric_name metric_doc
    (fst (_build_label_attribute_names h m s)) (Some buckets)
    metric_namespace metric_subsystem.

(** The branch on [label_names] that the three size closures run under
    [if content_length is not None]. *)
Definition observe_content_length (METRIC : Metric)
    (label_names info_attribute_names : list string) (info : Info)
    (content_length : PyVal) : M unit :=
  if nonempty label_names then
    label_values <- lift (append_label_values info info_attribute_names []) ;;
    child <- labels METRIC label_values ;;
    n <- lift (int content_length) ;;
    observe child (NInt n)
  else
    n <- lift (int content_length) ;;
    observe (Unlabelled METRIC) (NInt n).

(** The raw value of the [Content-Length] header, if there is one. *)
Definition content_length_of (h : Headers) : option string :=
  headers_lookup h "content-length".

(** * Properties *)

(** ** Label selector *)

Lemma lower_content_length : lower "Content-Length" = "content-length".
Proof. reflexivity. Qed.

Lemma headers_get_content_length (h : Headers) (default : PyVal) :
  headers_get h "Content-Length" default =
  match content_length_of h with
  | Some v => PyStr v
  | None => default
  end.
Proof. reflexivity. Qed.

Lemma nonempty_label_names (h m s : bool) :
  nonempty (fst (_build_label_attribute_names h m s)) = h || m || s.
Proof. destruct h, m, s; reflexivity. Qed.

Lemma append_label_values_selected (h m s : bool) (info : Info) :
  append_label_values info (snd (_build_label_attribute_names h m s)) [] =
  Ok (selected_values h m s info).
Proof. destruct h, m, s; reflexivity. Qed.

(** C4. The selector appends a label name and the matching [Info] field
    name in the order handler, method, status, each only when its flag is
    set: the two lists have the same length, position by position they pair
    a label with the field it is read from, the values a closure reads
    through the field names are those of the labels' fields, and with all
    flags off both lists are empty. *)
Theorem build_label_attribute_names_pairs :
  forall h m s : bool,
    let label_names := fst (_build_label_attribute_names h m s) in
    let info_attribute_names := snd (_build_label_attribute_names h m s) in
    List.length label_names = List.length info_attribute_names
    /\ combine label_names info_attribute_names =
         (if h then [("handler", "modified_handler")] else []) ++
         (if m then [("method", "method")] else []) ++
         (if s then [("status", "modified_status")] else [])
    /\ (forall info : Info,
          append_label_values info info_attribute_names [] =
          Ok (map (label_value info) label_names))
    /\ _build_label_attribute_names false false false = ([], []).
Proof.
  intros h m s; cbv zeta.
  repeat split; try (intro info); destruct h, m, s; reflexivity.
Qed.

(** ** Bucket normalisation *)

Lemma item_last_app {A : Type} (t : list A) (x : A) :
  item_last (t ++ [x]) = Ok x.
Proof.
  induction t as [|y t IH]; [reflexivity|].
  change ((y :: t) ++ [x]) with (y :: (t ++ [x])).
  simpl item_last. rewrite IH.
  destruct (t ++ [x]) eqn:E; [|reflexivity].
  destruct t; discriminate E.
Qed.


Lemma normalize_buckets_app (bs : list Num) (x : Num) :
  normalize_buckets (bs ++ [x]) =
  Ok (if ne_float_inf x then bs ++ [x; float_inf] else bs ++ [x]).
Proof.
  unfold normalize_buckets. rewrite item_last_app.
  destruct (ne_float_inf x); [|reflexivity].
  now rewrite <- app_assoc.
Qed.

Lemma normalize_buckets_nonempty_app (bs : list Num) (x : Num) :
  exists nb, normalize_buckets (bs ++ [x]) = Ok nb.
Proof. rewrite normalize_buckets_app. eauto. Qed.

Lemma normalize_buckets_nonempty (b : Num) (bs : list Num) :
  exists nb, normalize_buckets (b :: bs) = Ok nb.
Proof.
  destruct (exists_last (l := b :: bs)) as (t & x & E); [discriminate|].
  rewrite E, normalize_buckets_app. eauto.
Qed.


(** ** What the metric functions construct *)

Section Construction.

Variable admits : list Metric -> Metric -> bool.
Variables metric_name metric_doc metric_namespace metric_subsystem : string.
Variables h m s : bool.

Let label_names := fst (_build_label_attribute_names h m s).
Let info_attribute_names := snd (_build_label_attribute_names h m s).

Lemma latency_eq (buckets : list Num) (r : Registry) :
  latency admits metric_name metric_doc metric_namespace metric_subsystem
    h m s buckets r =
  match normalize_buckets buckets with
  | Ok nb =>
      let METRIC :=
        histogram_of metric_name metric_doc metric_namespace
          metric_subsystem h m s nb in
      if admits (collectors r) METRIC
      then (Ok (latency_instrumentation METRIC label_names info_attribute_names),
            registered r METRIC)
      else (Raise ValueError, r)
  | Raise e => (Raise e, r)
  end.
Proof.
  unfold latency, bind, lift, normalize_buckets, histogram_of, label_names,
    info_attribute_names.
  destruct (item_last buckets) as [last|e]; [|reflexivity].
  cbn. destruct (ne_float_inf last); destruct h, m, s; cbn; unfold Histogram, register;
    match goal with |- context [admits ?c ?x] => destruct (admits c x) end;
    reflexivity.
Qed.

Let SUMMARY :=
  summary_of metric_name metric_doc metric_namespace metric_subsystem h m s.

Lemma request_size_eq (r : Registry) :
  request_size admits metric_name metric_doc metric_namespace
    metric_subsystem h m s r =
  if admits (collectors r) SUMMARY
  then (Ok (request_size_instrumentation SUMMARY label_names info_attribute_names),
        registered r SUMMARY)
  else (Raise ValueError, r).
Proof.
  unfold request_size, bind, SUMMARY, summary_of, label_names,
    info_attribute_names.
  destruct h, m, s; cbn; unfold Summary, register;
    match goal with |- context [admits ?c ?x] => destruct (admits c x) end;
    reflexivity.
Qed.

Lemma response_size_eq (r : Registry) :
  response_size admits metric_name metric_doc metric_namespace
    metric_subsystem h m s r =
  if admits (collectors r) SUMMARY
  then (Ok (response_size_instrumentation SUMMARY label_names info_attribute_names),
        registered r SUMMARY)
  else (Raise ValueError, r).
Proof.
  unfold response_size, bind, SUMMARY, summary_of, label_names,
    info_attribute_names.
  destruct h, m, s; cbn; unfold Summary, register;
    match goal with |- context [admits ?c ?x] => destruct (admits c x) end;
    reflexivity.
Qed.

Lemma combined_size_eq (r : Registry) :
  combined_size admits metric_name metric_doc metric_namespace
    metric_subsystem h m s r =
  if admits (collectors r) SUMMARY
  then (Ok (combined_size_instrumentation SUMMARY label_names info_attribute_names),
        registered r SUMMARY)
  else (Raise ValueError, r).
Proof.
  unfold combined_size, bind, SUMMARY, summary_of, label_names,
    info_attribute_names.
  destruct h, m, s; cbn; unfold Summary, register;
    match goal with |- context [admits ?c ?x] => destruct (admits c x) end;
    reflexivity.
Qed.

End Construction.

Lemma bind_ret {A B : Type} (a : A) (k : A -> M B) (r : Registry) :
  bind (ret a) k r = k a r.
Proof. reflexivity. Qed.

Lemma bind_raise {A B : Type} (e : Exn) (k : A -> M B) (r : Registry) :
  bind (raise e) k r = (Raise e, r).
Proof. reflexivity. Qed.

Lemma ne_float_inf_inf : ne_float_inf float_inf = false.
Proof. reflexivity. Qed.

(** [default] normalises its two tuples and goes on with the results. *)
Lemma default_eq (admits : list Metric -> Metric -> bool) (ns ss : string)
    (highr lowr : list Num) (r : Registry) :
  default admits ns ss highr lowr r =
  match normalize_buckets highr with
  | Ok nhb =>
      match normalize_buckets lowr with
      | Ok nlb => default admits ns ss nhb nlb r
      | Raise e => (Raise e, r)
      end
  | Raise e => (Raise e, r)
  end.
Proof.
  unfold normalize_buckets.
  destruct (item_last highr) as [a|e] eqn:Ia.
  2: { unfold default. rewrite Ia. reflexivity. }
  destruct (item_last lowr) as [b|e] eqn:Ib.
  2: { unfold default. rewrite Ia. simpl lift. rewrite bind_ret. cbv beta zeta.
       rewrite Ib. destruct (ne_float_inf a); reflexivity. }
  unfold default at 1. rewrite Ia, Ib. simpl lift. rewrite ?bind_ret.
  cbv beta zeta. rewrite ?bind_ret. cbv beta.
  destruct (ne_float_inf a) eqn:Ha, (ne_float_inf b) eqn:Hb; cbv iota;
    unfold default;
    rewrite ?item_last_app, ?Ia, ?Ib; simpl lift; rewrite ?bind_ret;
    cbv beta zeta; rewrite ?item_last_app, ?Ia, ?Ib; simpl lift;
    rewrite ?bind_ret; cbv beta;
    rewrite ?ne_float_inf_inf, ?Ha, ?Hb; reflexivity.
Qed.

(** The five metrics of a closure that [default] returned. *)
Lemma default_inv (admits : list Metric -> Metric -> bool)
    (metric_namespace metric_subsystem : string)
    (latency_highr_buckets latency_lowr_buckets : list Num)
    (r r' : Registry) (f : Info -> M unit) :
  default admits metric_namespace metric_subsystem
    latency_highr_buckets latency_lowr_buckets r = (Ok f, r') ->
  exists TOTAL IN_SIZE OUT_SIZE LATENCY_HIGHR LATENCY_LOWR,
    f = default_instrumentation TOTAL IN_SIZE OUT_SIZE LATENCY_HIGHR LATENCY_LOWR
    /\ collectors r' =
         collectors r ++ [TOTAL; IN_SIZE; OUT_SIZE; LATENCY_HIGHR; LATENCY_LOWR]
    /\ (kind TOTAL = KCounter /\ name TOTAL = "http_requests_total"
        /\ labelnames TOTAL = ["method"; "status"; "handler"])
    /\ (kind IN_SIZE = KSummary /\ name IN_SIZE = "http_request_size_bytes"
        /\ labelnames IN_SIZE = ["handler"])
    /\ (kind OUT_SIZE = KSummary /\ name OUT_SIZE = "http_response_size_bytes"
        /\ labelnames OUT_SIZE = ["handler"])
    /\ (kind LATENCY_HIGHR = KHistogram
        /\ name LATENCY_HIGHR = "http_request_duration_highr_seconds"
        /\ labelnames LATENCY_HIGHR = []
        /\ Ok (buckets LATENCY_HIGHR) =
             match normalize_buckets latency_highr_buckets with
             | Ok nb => Ok (Some nb)
             | Raise e => Raise e
             end)
    /\ (kind LATENCY_LOWR = KHistogram
        /\ name LATENCY_LOWR = "http_request_duration_seconds"
        /\ labelnames LATENCY_LOWR = ["handler"]
        /\ Ok (buckets LATENCY_LOWR) =
             match normalize_buckets latency_lowr_buckets with
             | Ok nb => Ok (Some nb)
             | Raise e => Raise e
             end).
Proof.
  unfold default, bind, lift, normalize_buckets, Counter, Summary, Histogram,
    register, ret, raise.
  destruct (item_last latency_highr_buckets) as [a|e]; [|discriminate].
  destruct (item_last latency_lowr_buckets) as [b|e]; [|discriminate].
  repeat match goal with
         | |- context [admits ?c ?x] => destruct (admits c x); [|discriminate]
         end.
  intros [= <- <-].
  do 5 eexists. split; [reflexivity|]. cbn.
  rewrite <- !app_assoc. cbn.
  destruct (ne_float_inf a), (ne_float_inf b); repeat split; reflexivity.
Qed.



(** C10. With an empty bucket tuple [latency] and [default] raise
    [IndexError] while normalising, before any metric is constructed: the
    registry is left as it was and no closure is returned.  For [default]
    this holds for either of its two tuples. *)
Theorem empty_buckets_raise_IndexError :
  forall (admits : list Metric -> Metric -> bool)
         (name doc ns ss : string) (h m s : bool) (other : list Num)
         (r : Registry),
    latency admits name doc ns ss h m s [] r = (Raise IndexError, r)
    /\ default admits ns ss [] other r = (Raise IndexError, r)
    /\ default admits ns ss other [] r = (Raise IndexError, r).
Proof.
  intros. split; [|split].
  - rewrite latency_eq. reflexivity.
  - reflexivity.
  - destruct other as [|b bs]; [reflexivity|].
    destruct (normalize_buckets_nonempty b bs) as (nb & E).
    rewrite default_eq, E. reflexivity.
Qed.

(** ** What the closures do *)

Lemma of_str_empty : PyInt.of_str "" = None.
Proof. reflexivity. Qed.

Lemma int_PyStr_Some (v : string) (n : Z) :
  PyInt.of_str v = Some n -> int (PyStr v) = Ok n.
Proof. intros E; simpl; now rewrite E. Qed.

Lemma int_PyStr_None (v : string) :
  PyInt.of_str v = None -> int (PyStr v) = Raise ValueError.
Proof. intros E; simpl; now rewrite E. Qed.

Lemma truthy_parsed (v : string) (n : Z) :
  PyInt.of_str v = Some n -> truthy (PyStr v) = true.
Proof. destruct v; [discriminate | reflexivity]. Qed.

Lemma truthy_PyStr (v : string) : truthy (PyStr v) = true <-> v <> "".
Proof.
  destruct v; simpl; split; intros H; try reflexivity; try discriminate.
  now contradiction H.
Qed.

Section Closures.

Variables h m s : bool.
Variable METRIC : Metric.

Let label_names := fst (_build_label_attribute_names h m s).
Let info_attribute_names := snd (_build_label_attribute_names h m s).

Hypothesis METRIC_labelnames : labelnames METRIC = label_names.

(** Binding the selected values never fails: there are as many values
    as label names. *)
Lemma labels_selected_values (info : Info) (r : Registry) :
  h || m || s = true ->
  labels METRIC (selected_values h m s info) r =
  (Ok (Labelled METRIC (selected_values h m s info)), r).
Proof.
  unfold labels. rewrite METRIC_labelnames. subst label_names.
  destruct h, m, s; try discriminate; reflexivity.
Qed.

Lemma unlabelled_observable :
  h || m || s = false -> observable (Unlabelled METRIC) = true.
Proof.
  intros E. simpl. rewrite METRIC_labelnames. subst label_names.
  now rewrite nonempty_label_names, E.
Qed.

Lemma latency_instrumentation_ok (info : Info) (r : Registry) :
  latency_instrumentation METRIC label_names info_attribute_names info r =
  (Ok tt, recorded r (bound_series METRIC h m s info)
            (Observe (NFloat (modified_duration info)))).
Proof.
  unfold latency_instrumentation, bound_series, label_names,
    info_attribute_names.
  rewrite nonempty_label_names. destruct (h || m || s) eqn:E.
  - unfold bind. rewrite append_label_values_selected. simpl lift.
    unfold ret at 1. rewrite labels_selected_values by exact E.
    reflexivity.
  - unfold observe. now rewrite unlabelled_observable.
Qed.

Lemma observe_content_length_ok (info : Info) (content_length : PyVal)
    (n : Z) (r : Registry) :
  int content_length = Ok n ->
  observe_content_length METRIC label_names info_attribute_names info
    content_length r =
  (Ok tt, recorded r (bound_series METRIC h m s info) (Observe (NInt n))).
Proof.
  intros Hn.
  unfold observe_content_length, bound_series, label_names,
    info_attribute_names.
  rewrite nonempty_label_names. destruct (h || m || s) eqn:E.
  - unfold bind. rewrite append_label_values_selected. simpl lift.
    unfold ret at 1. rewrite labels_selected_values by exact E.
    rewrite Hn. reflexivity.
  - unfold bind. rewrite Hn. simpl lift. unfold ret at 1.
    unfold observe. now rewrite unlabelled_observable.
Qed.

Lemma observe_content_length_raise (info : Info) (content_length : PyVal)
    (e : Exn) (r : Registry) :
  int content_length = Raise e ->
  observe_content_length METRIC label_names info_attribute_names info
    content_length r = (Raise e, r).
Proof.
  intros Hn.
  unfold observe_content_length, label_names, info_attribute_names.
  rewrite nonempty_label_names. destruct (h || m || s) eqn:E.
  - unfold bind. rewrite append_label_values_selected. simpl lift.
    unfold ret at 1. rewrite labels_selected_values by exact E.
    rewrite Hn. reflexivity.
  - unfold bind. rewrite Hn. reflexivity.
Qed.

End Closures.

Lemma request_size_instrumentation_eq (METRIC : Metric)
    (label_names info_attribute_names : list string) (info : Info)
    (r : Registry) :
  request_size_instrumentation METRIC label_names info_attribute_names info r =
  match content_length_of (Request.headers (request info)) with
  | Some v =>
      observe_content_length METRIC label_names info_attribute_names info
        (PyStr v) r
  | None => (Ok tt, r)
  end.
Proof.
  unfold request_size_instrumentation.
  rewrite headers_get_content_length.
  destruct (content_length_of _); reflexivity.
Qed.

Lemma response_size_instrumentation_eq (METRIC : Metric)
    (label_names info_attribute_names : list string) (info : Info)
    (r : Registry) :
  response_size_instrumentation METRIC label_names info_attribute_names info r =
  match response info with
  | Some resp =>
      match content_length_of (Response.headers resp) with
      | Some v =>
          observe_content_length METRIC label_names info_attribute_names info
            (PyStr v) r
      | None => (Ok tt, r)
      end
  | None => (Raise AttributeError, r)
  end.
Proof.
  unfold response_size_instrumentation, response_headers, bind.
  destruct (response info) as [resp|]; [|reflexivity].
  simpl lift. unfold ret at 1.
  rewrite headers_get_content_length.
  destruct (content_length_of _); reflexivity.
Qed.

(** The value [combined_size] settles on before it observes: a header
    counts when its value is not the empty string. *)
Lemma combined_size_instrumentation_eq (METRIC : Metric)
    (label_names info_attribute_names : list string) (info : Info)
    (r : Registry) :
  combined_size_instrumentation METRIC label_names info_attribute_names info r =
  match response info with
  | Some resp =>
      let request_cl :=
        headers_get (Request.headers (request info)) "Content-Length" PyNone in
      let response_cl :=
        headers_get (Response.headers resp) "Content-Length" PyNone in
      if truthy request_cl then
        match int request_cl with
        | Ok a =>
            if truthy response_cl then
              match int response_cl with
              | Ok b =>
                  observe_content_length METRIC label_names
                    info_attribute_names info (PyInt (a + b)) r
              | Raise e => (Raise e, r)
              end
            else
              observe_content_length METRIC label_names info_attribute_names
                info (PyInt a) r
        | Raise e => (Raise e, r)
        end
      else if truthy response_cl then
        match int response_cl with
        | Ok b =>
            observe_content_length METRIC label_names info_attribute_names
              info (PyInt b) r
        | Raise e => (Raise e, r)
        end
      else (Ok tt, r)
  | None => (Raise AttributeError, r)
  end.
Proof.
  unfold combined_size_instrumentation, response_headers, bind.
  destruct (response info) as [resp|]; [|reflexivity].
  simpl lift. unfold ret at 1. cbv zeta.
  destruct (truthy (headers_get (Request.headers (request info)) _ _));
    destruct (truthy (headers_get (Response.headers resp) _ _)); simpl andb; cbv iota.
  - destruct (int (headers_get (Request.headers (request info)) _ _)); [|reflexivity].
    simpl lift. unfold ret at 1.
    destruct (int (headers_get (Response.headers resp) _ _)); reflexivity.
  - destruct (int (headers_get (Request.headers (request info)) _ _)); reflexivity.
  - destruct (int (headers_get (Response.headers resp) _ _)); reflexivity.
  - reflexivity.
Qed.

(** ** The closure a metric function returned *)

Section Returned.

Variable admits : list Metric -> Metric -> bool.
Variables name doc ns ss : string.
Variables h m s : bool.
Variables (r r' : Registry) (f : Info -> M unit).

Let label_names := fst (_build_label_attribute_names h m s).
Let info_attribute_names := snd (_build_label_attribute_names h m s).
Let SUMMARY := summary_of name doc ns ss h m s.

Lemma latency_inv (buckets : list Num) :
  latency admits name doc ns ss h m s buckets r = (Ok f, r') ->
  exists nb,
    normalize_buckets buckets = Ok nb
    /\ f = latency_instrumentation (histogram_of name doc ns ss h m s nb)
             label_names info_attribute_names
    /\ r' = registered r (histogram_of name doc ns ss h m s nb).
Proof.
  rewrite latency_eq.
  destruct (normalize_buckets buckets) as [nb|e]; [|discriminate].
  cbv zeta. destruct (admits _ _); [|discriminate].
  intros [= <- <-]. exists nb. repeat split.
Qed.

Lemma request_size_inv :
  request_size admits name doc ns ss h m s r = (Ok f, r') ->
  f = request_size_instrumentation SUMMARY label_names info_attribute_names
  /\ r' = registered r SUMMARY.
Proof.
  rewrite request_size_eq. destruct (admits _ _); [|discriminate].
  intros [= <- <-]. split; reflexivity.
Qed.

Lemma response_size_inv :
  response_size admits name doc ns ss h m s r = (Ok f, r') ->
  f = response_size_instrumentation SUMMARY label_names info_attribute_names
  /\ r' = registered r SUMMARY.
Proof.
  rewrite response_size_eq. destruct (admits _ _); [|discriminate].
  intros [= <- <-]. split; reflexivity.
Qed.

Lemma combined_size_inv :
  combined_size admits name doc ns ss h m s r = (Ok f, r') ->
  f = combined_size_instrumentation SUMMARY label_names info_attribute_names
  /\ r' = registered r SUMMARY.
Proof.
  rewrite combined_size_eq. destruct (admits _ _); [|discriminate].
  intros [= <- <-]. split; reflexivity.
Qed.

End Returned.

(** ** Size closures *)

(** C5. Once the registry admits its metric, [request_size] and
    [response_size] each return a closure.  The closure of [request_size]
    (of [response_size], where the response exists) records nothing when
    the request (the response) has no [Content-Length] header; when the
    header is there and its value parses as an integer, it observes that
    integer, once, on the series of the selected labels. *)
Theorem size_closure_skips_or_observes :
  forall (admits : list Metric -> Metric -> bool) (name doc ns ss : string)
         (h m s : bool) (r r' : Registry) (f : Info -> M unit)
         (info : Info) (r0 : Registry),
    let METRIC := summary_of name doc ns ss h m s in
    (request_size admits name doc ns ss h m s r = (Ok f, r') ->
       (content_length_of (Request.headers (request info)) = None ->
          f info r0 = (Ok tt, r0))
       /\ (forall v n,
             content_length_of (Request.headers (request info)) = Some v ->
             PyInt.of_str v = Some n ->
             f info r0 =
             (Ok tt, recorded r0 (bound_series METRIC h m s info)
                       (Observe (NInt n)))))
    /\ (response_size admits name doc ns ss h m s r = (Ok f, r') ->
        forall resp, response info = Some resp ->
          (content_length_of (Response.headers resp) = None ->
             f info r0 = (Ok tt, r0))
          /\ (forall v n,
                content_length_of (Response.headers resp) = Some v ->
                PyInt.of_str v = Some n ->
                f info r0 =
                (Ok tt, recorded r0 (bound_series METRIC h m s info)
                          (Observe (NInt n)))))
    /\ (admits (collectors r) METRIC = true ->
        (exists g,
           request_size admits name doc ns ss h m s r =
           (Ok g, registered r METRIC))
        /\ (exists g,
              response_size admits name doc ns ss h m s r =
              (Ok g, registered r METRIC))).
Proof.
  intros; split; [|split].
  - intros C. apply request_size_inv in C as [-> _].
    rewrite request_size_instrumentation_eq. split.
    + intros ->. reflexivity.
    + intros v n -> Hn.
      apply observe_content_length_ok; [reflexivity | now apply int_PyStr_Some].
  - intros C resp Hresp. apply response_size_inv in C as [-> _].
    rewrite response_size_instrumentation_eq, Hresp. split.
    + intros ->. reflexivity.
    + intros v n -> Hn.
      apply observe_content_length_ok; [reflexivity | now apply int_PyStr_Some].
  - intros A. split; eexists.
    + rewrite request_size_eq. fold METRIC. rewrite A. reflexivity.
    + rewrite response_size_eq. fold METRIC. rewrite A. reflexivity.
Qed.

(** A registry policy of the kind the client library applies, and the
    requests and responses of the examples. *)
Definition request_120 : Request.t := Request.Build [("content-length", "120")].
Definition response_340 : Response.t := Response.Build [("content-length", "340")].
Definition request_bare : Request.t := Request.Build [("host", "example.org")].
Definition response_bare : Response.t :=
  Response.Build [("content-type", "application/json")].

Definition info_of (req : Request.t) (resp : option Response.t) : Info :=
  Build_Info' req resp "GET" "/items" "2xx" 0.42%float.

Definition http_request_size_bytes : M (Info -> M unit) :=
  request_size unique_names "http_request_size_bytes"
    "Content bytes of requests." "" "" true true true.

Definition http_response_size_bytes : M (Info -> M unit) :=
  response_size unique_names "http_response_size_bytes"
    "Content bytes of responses." "" "" true true true.

Definition http_combined_size_bytes : M (Info -> M unit) :=
  combined_size unique_names "http_combined_size_bytes"
    "Content bytes of requests and responses." "" "" true true true.

Lemma size_closure_skips_or_observes_witness :
  (exists f,
     http_request_size_bytes empty_registry =
     (Ok f,
      registered empty_registry
        (summary_of "http_request_size_bytes" "Content bytes of requests."
           "" "" true true true))
     /\ f (info_of request_bare (Some response_340)) empty_registry =
        (Ok tt, empty_registry)
     /\ f (info_of request_120 (Some response_340)) empty_registry =
        (Ok tt,
         recorded empty_registry
           (Labelled (summary_of "http_request_size_bytes"
                        "Content bytes of requests." "" "" true true true)
              [AttrStr "/items"; AttrStr "GET"; AttrStr "2xx"])
           (Observe (NInt 120))))
  /\ (exists g,
        http_response_size_bytes empty_registry =
        (Ok g,
         registered empty_registry
           (summary_of "http_response_size_bytes" "Content bytes of responses."
              "" "" true true true))
        /\ g (info_of request_120 (Some response_bare)) empty_registry =
           (Ok tt, empty_registry)
        /\ g (info_of request_120 (Some response_340)) empty_registry =
           (Ok tt,
            recorded empty_registry
              (Labelled (summary_of "http_response_size_bytes"
                           "Content bytes of responses." "" "" true true true)
                 [AttrStr "/items"; AttrStr "GET"; AttrStr "2xx"])
              (Observe (NInt 340)))).
Proof.
  split.
  - destruct (size_closure_skips_or_observes unique_names
                "http_request_size_bytes" "Content bytes of requests." "" ""
                true true true empty_registry empty_registry (fun _ => ret tt)
                (info_of request_bare None) empty_registry)
      as (_ & _ & Hex).
    destruct (Hex eq_refl) as ((f & C) & _).
    exists f. split; [exact C|]. split.
    + destruct (size_closure_skips_or_observes unique_names
                  "http_request_size_bytes" "Content bytes of requests." "" ""
                  true true true empty_registry
                  (registered empty_registry
                     (summary_of "http_request_size_bytes"
                        "Content bytes of requests." "" "" true true true)) f
                  (info_of request_bare (Some response_340)) empty_registry)
        as (Hreq & _).
      destruct (Hreq C) as (Habsent & _). apply Habsent. reflexivity.
    + destruct (size_closure_skips_or_observes unique_names
                  "http_request_size_bytes" "Content bytes of requests." "" ""
                  true true true empty_registry
                  (registered empty_registry
                     (summary_of "http_request_size_bytes"
                        "Content bytes of requests." "" "" true true true)) f
                  (info_of request_120 (Some response_340)) empty_registry)
        as (Hreq & _).
      destruct (Hreq C) as (_ & Hpresent).
      apply (Hpresent "120" 120%Z); reflexivity.
  - destruct (size_closure_skips_or_observes unique_names
                "http_response_size_bytes" "Content bytes of responses." "" ""
                true true true empty_registry empty_registry (fun _ => ret tt)
                (info_of request_bare None) empty_registry)
      as (_ & _ & Hex).
    destruct (Hex eq_refl) as (_ & (g & C)).
    exists g. split; [exact C|]. split.
    + destruct (size_closure_skips_or_observes unique_names
                  "http_response_size_bytes" "Content bytes of responses."
                  "" "" true true true empty_registry
                  (registered empty_registry
                     (summary_of "http_response_size_bytes"
                        "Content bytes of responses." "" "" true true true)) g
                  (info_of request_120 (Some response_bare)) empty_registry)
        as (_ & Hresp & _).
      destruct (Hresp C response_bare eq_refl) as (Habsent & _).
      apply Habsent. reflexivity.
    + destruct (size_closure_skips_or_observes unique_names
                  "http_response_size_bytes" "Content bytes of responses."
                  "" "" true true true empty_registry
                  (registered empty_registry
                     (summary_of "http_response_size_bytes"
                        "Content bytes of responses." "" "" true true true)) g
                  (info_of request_120 (Some response_340)) empty_registry)
        as (_ & Hresp & _).
      destruct (Hresp C response_340 eq_refl) as (_ & Hpresent).
      apply (Hpresent "340" 340%Z); reflexivity.
Defined.

(** C2. Where the response exists, the closure of [combined_size]
    observes the sum of the two [Content-Length] values when both headers
    are there (and parse as integers), the value of the one header that is
    there when the other is missing, and records nothing when both are
    missing. *)
Theorem combined_size_observes_sum_or_single :
  forall (admits : list Metric -> Metric -> bool) (name doc ns ss : string)
         (h m s : bool) (r r' : Registry) (f : Info -> M unit)
         (info : Info) (resp : Response.t) (r0 : Registry),
    let METRIC := summary_of name doc ns ss h m s in
    let request_cl := content_length_of (Request.headers (request info)) in
    let response_cl := content_length_of (Response.headers resp) in
    let observed n :=
      (Ok tt, recorded r0 (bound_series METRIC h m s info) (Observe (NInt n))) in
    combined_size admits name doc ns ss h m s r = (Ok f, r') ->
    response info = Some resp ->
    (forall a b x y,
       request_cl = Some a -> response_cl = Some b ->
       PyInt.of_str a = Some x -> PyInt.of_str b = Some y ->
       f info r0 = observed (x + y)%Z)
    /\ (forall a x,
          request_cl = Some a -> response_cl = None ->
          PyInt.of_str a = Some x ->
          f info r0 = observed x)
    /\ (forall b y,
          request_cl = None -> response_cl = Some b ->
          PyInt.of_str b = Some y ->
          f info r0 = observed y)
    /\ (request_cl = None -> response_cl = None -> f info r0 = (Ok tt, r0)).
Proof.
  intros admits name doc ns ss h m s r r' f info resp r0
         METRIC request_cl response_cl observed C Hresp.
  apply combined_size_inv in C as [-> _].
  rewrite combined_size_instrumentation_eq, Hresp.
  rewrite !headers_get_content_length. cbv zeta.
  fold request_cl response_cl. subst observed. cbv beta.
  repeat split.
  - intros a b x y -> -> Ha Hb.
    rewrite (truthy_parsed _ _ Ha), (truthy_parsed _ _ Hb).
    rewrite (int_PyStr_Some _ _ Ha), (int_PyStr_Some _ _ Hb).
    now apply observe_content_length_ok.
  - intros a x -> -> Ha.
    rewrite (truthy_parsed _ _ Ha), (int_PyStr_Some _ _ Ha). simpl truthy.
    cbv iota. now apply observe_content_length_ok.
  - intros b y -> -> Hb.
    rewrite (truthy_parsed _ _ Hb), (int_PyStr_Some _ _ Hb). simpl truthy.
    cbv iota. now apply observe_content_length_ok.
  - intros -> ->. reflexivity.
Qed.

Lemma combined_size_observes_sum_or_single_witness :
  exists f r',
    http_combined_size_bytes empty_registry = (Ok f, r')
    /\ f (info_of request_120 (Some response_340)) r' =
       (Ok tt,
        recorded r'
          (Labelled (summary_of "http_combined_size_bytes"
                       "Content bytes of requests and responses." "" ""
                       true true true)
             [AttrStr "/items"; AttrStr "GET"; AttrStr "2xx"])
          (Observe (NInt 460)))
    /\ f (info_of request_120 (Some response_bare)) r' =
       (Ok tt,
        recorded r'
          (Labelled (summary_of "http_combined_size_bytes"
                       "Content bytes of requests and responses." "" ""
                       true true true)
             [AttrStr "/items"; AttrStr "GET"; AttrStr "2xx"])
          (Observe (NInt 120)))
    /\ f (info_of request_bare (Some response_bare)) r' = (Ok tt, r').
Proof.
  destruct (http_combined_size_bytes empty_registry) as [[f|e] r'] eqn:C;
    [|discriminate C].
  exists f, r'. split; [reflexivity|].
  pose proof (fun info resp =>
                combined_size_observes_sum_or_single unique_names
                  "http_combined_size_bytes"
                  "Content bytes of requests and responses." "" ""
                  true true true empty_registry r' f info resp r' C) as T.
  split; [|split].
  - destruct (T (info_of request_120 (Some response_340)) response_340 eq_refl)
      as (Hboth & _).
    apply (Hboth "120" "340" 120%Z 340%Z); reflexivity.
  - destruct (T (info_of request_120 (Some response_bare)) response_bare eq_refl)
      as (_ & Hreq & _).
    apply (Hreq "120" 120%Z); reflexivity.
  - destruct (T (info_of request_bare (Some response_bare)) response_bare eq_refl)
      as (_ & _ & _ & Hnone).
    apply Hnone; reflexivity.
Defined.

(** ** Headers that do not parse *)

Definition request_empty_length : Request.t :=
  Request.Build [("content-length", "")].

Definition response_empty_length : Response.t :=
  Response.Build [("content-length", "")].

Definition request_malformed : Request.t :=
  Request.Build [("content-length", "12 bytes")].

(** C8, as stated, fails: a request whose [Content-Length] is there with
    the empty string as its value, which is not an integer, goes through
    the closure of [combined_size] without an exception and without an
    observation. *)
Lemma combined_size_empty_value_not_raised :
  let info := info_of request_empty_length (Some response_bare) in
  content_length_of (Request.headers (request info)) = Some ""
  /\ PyInt.of_str "" = None
  /\ exists f r',
       http_combined_size_bytes empty_registry = (Ok f, r')
       /\ f info r' = (Ok tt, r').
Proof.
  cbv zeta. split; [reflexivity|]. split; [reflexivity|].
  eexists; eexists. split; [reflexivity|].
  rewrite combined_size_instrumentation_eq. reflexivity.
Qed.

(** C8, amended. A [Content-Length] value that is there and does not
    parse as an integer makes the closures of [request_size] and of
    [response_size] raise [ValueError] with nothing recorded; the closure
    of [combined_size] does the same when such a value, of the request or
    of the response, is not the empty string. *)
Theorem malformed_content_length_raises :
  forall (admits : list Metric -> Metric -> bool) (name doc ns ss : string)
         (h m s : bool) (r r' : Registry) (f : Info -> M unit)
         (info : Info) (r0 : Registry),
    (request_size admits name doc ns ss h m s r = (Ok f, r') ->
     forall v,
       content_length_of (Request.headers (request info)) = Some v ->
       PyInt.of_str v = None ->
       f info r0 = (Raise ValueError, r0))
    /\ (response_size admits name doc ns ss h m s r = (Ok f, r') ->
        forall resp v,
          response info = Some resp ->
          content_length_of (Response.headers resp) = Some v ->
          PyInt.of_str v = None ->
          f info r0 = (Raise ValueError, r0))
    /\ (combined_size admits name doc ns ss h m s r = (Ok f, r') ->
        forall resp v,
          response info = Some resp ->
          content_length_of (Request.headers (request info)) = Some v
          \/ content_length_of (Response.headers resp) = Some v ->
          v <> "" ->
          PyInt.of_str v = None ->
          f info r0 = (Raise ValueError, r0)).
Proof.
  intros. split; [|split].
  - intros C v Hv Hn. apply request_size_inv in C as [-> _].
    rewrite request_size_instrumentation_eq, Hv.
    apply observe_content_length_raise; [reflexivity | now apply int_PyStr_None].
  - intros C resp v Hresp Hv Hn. apply response_size_inv in C as [-> _].
    rewrite response_size_instrumentation_eq, Hresp, Hv.
    apply observe_content_length_raise; [reflexivity | now apply int_PyStr_None].
  - intros C resp v Hresp Hv Hne Hn. apply combined_size_inv in C as [-> _].
    rewrite combined_size_instrumentation_eq, Hresp.
    rewrite !headers_get_content_length. cbv zeta.
    apply truthy_PyStr in Hne. apply int_PyStr_None in Hn.
    destruct Hv as [-> | ->].
    + rewrite Hne, Hn. reflexivity.
    + rewrite Hne, Hn.
      destruct (content_length_of (Request.headers (request info))) as [a|];
        [|reflexivity].
      destruct (truthy (PyStr a)); [|reflexivity].
      simpl int. destruct (PyInt.of_str a); reflexivity.
Qed.

Lemma malformed_content_length_raises_witness :
  (exists f r',
     http_request_size_bytes empty_registry = (Ok f, r')
     /\ f (info_of request_malformed (Some response_340)) r' =
        (Raise ValueError, r'))
  /\ (exists f r',
        http_response_size_bytes empty_registry = (Ok f, r')
        /\ f (info_of request_120 (Some response_empty_length)) r' =
           (Raise ValueError, r'))
  /\ (exists f r',
        http_combined_size_bytes empty_registry = (Ok f, r')
        /\ f (info_of request_malformed (Some response_340)) r' =
           (Raise ValueError, r')).
Proof.
  split; [|split].
  - destruct (http_request_size_bytes empty_registry) as [[f|e] r'] eqn:C;
      [|discriminate C].
    exists f, r'. split; [reflexivity|].
    destruct (malformed_content_length_raises unique_names
                "http_request_size_bytes" "Content bytes of requests." "" ""
                true true true empty_registry r' f
                (info_of request_malformed (Some response_340)) r')
      as (Hreq & _).
    apply (Hreq C "12 bytes"); reflexivity.
  - destruct (http_response_size_bytes empty_registry) as [[f|e] r'] eqn:C;
      [|discriminate C].
    exists f, r'. split; [reflexivity|].
    destruct (malformed_content_length_raises unique_names
                "http_response_size_bytes" "Content bytes of responses." "" ""
                true true true empty_registry r' f
                (info_of request_120 (Some response_empty_length)) r')
      as (_ & Hresp & _).
    apply (Hresp C response_empty_length ""); reflexivity.
  - destruct (http_combined_size_bytes empty_registry) as [[f|e] r'] eqn:C;
      [|discriminate C].
    exists f, r'. split; [reflexivity|].
    destruct (malformed_content_length_raises unique_names
                "http_combined_size_bytes"
                "Content bytes of requests and responses." "" ""
                true true true empty_registry r' f
                (info_of request_malformed (Some response_340)) r')
      as (_ & _ & Hcomb).
    apply (Hcomb C response_340 "12 bytes");
      [reflexivity | left; reflexivity | discriminate | reflexivity].
Defined.

(** C9. A [Content-Length] header whose value is the empty string: the
    closures of [request_size] and [response_size] find it there, try to
    parse it and raise [ValueError]; the closure of [combined_size] takes
    it for a missing header, so it records nothing when the other header
    is missing or empty too, and falls back on the other header's value
    when that one parses. *)
Theorem empty_content_length_inconsistent :
  forall (admits : list Metric -> Metric -> bool) (name doc ns ss : string)
         (h m s : bool) (r r' : Registry) (f : Info -> M unit)
         (info : Info) (r0 : Registry),
    let METRIC := summary_of name doc ns ss h m s in
    let observed n :=
      (Ok tt, recorded r0 (bound_series METRIC h m s info) (Observe (NInt n))) in
    (request_size admits name doc ns ss h m s r = (Ok f, r') ->
     content_length_of (Request.headers (request info)) = Some "" ->
     f info r0 = (Raise ValueError, r0))
    /\ (response_size admits name doc ns ss h m s r = (Ok f, r') ->
        forall resp,
          response info = Some resp ->
          content_length_of (Response.headers resp) = Some "" ->
          f info r0 = (Raise ValueError, r0))
    /\ (combined_size admits name doc ns ss h m s r = (Ok f, r') ->
        forall resp,
          response info = Some resp ->
          let request_cl := content_length_of (Request.headers (request info)) in
          let response_cl := content_length_of (Response.headers resp) in
          (request_cl = Some "" ->
           response_cl = None \/ response_cl = Some "" ->
           f info r0 = (Ok tt, r0))
          /\ (request_cl = None -> response_cl = Some "" ->
              f info r0 = (Ok tt, r0))
          /\ (forall b y,
                request_cl = Some "" -> response_cl = Some b ->
                PyInt.of_str b = Some y ->
                f info r0 = observed y)
          /\ (forall a x,
                request_cl = Some a -> response_cl = Some "" ->
                PyInt.of_str a = Some x ->
                f info r0 = observed x)).
Proof.
  intros admits name doc ns ss h m s r r' f info r0 METRIC observed.
  split; [|split].
  - intros C Hv. apply request_size_inv in C as [-> _].
    rewrite request_size_instrumentation_eq, Hv.
    now apply observe_content_length_raise.
  - intros C resp Hresp Hv. apply response_size_inv in C as [-> _].
    rewrite response_size_instrumentation_eq, Hresp, Hv.
    now apply observe_content_length_raise.
  - intros C resp Hresp request_cl response_cl.
    apply combined_size_inv in C as [-> _].
    rewrite combined_size_instrumentation_eq, Hresp.
    rewrite !headers_get_content_length. cbv zeta.
    fold request_cl response_cl. subst observed. cbv beta.
    repeat split.
    + intros -> [-> | ->]; reflexivity.
    + intros -> ->; reflexivity.
    + intros b y -> -> Hb.
      rewrite (truthy_parsed _ _ Hb), (int_PyStr_Some _ _ Hb). simpl truthy.
      cbv iota. now apply observe_content_length_ok.
    + intros a x -> -> Ha.
      rewrite (truthy_parsed _ _ Ha), (int_PyStr_Some _ _ Ha). simpl truthy.
      cbv iota. now apply observe_content_length_ok.
Qed.

Lemma empty_content_length_inconsistent_witness :
  (exists f r',
     http_request_size_bytes empty_registry = (Ok f, r')
     /\ f (info_of request_empty_length (Some response_340)) r' =
        (Raise ValueError, r'))
  /\ (exists f r',
        http_response_size_bytes empty_registry = (Ok f, r')
        /\ f (info_of request_120 (Some response_empty_length)) r' =
           (Raise ValueError, r'))
  /\ (exists f r',
        http_combined_size_bytes empty_registry = (Ok f, r')
        /\ f (info_of request_empty_length (Some response_empty_length)) r' =
           (Ok tt, r')
        /\ f (info_of request_empty_length (Some response_340)) r' =
           (Ok tt,
            recorded r'
              (Labelled (summary_of "http_combined_size_bytes"
                           "Content bytes of requests and responses." "" ""
                           true true true)
                 [AttrStr "/items"; AttrStr "GET"; AttrStr "2xx"])
              (Observe (NInt 340)))).
Proof.
  split; [|split].
  - destruct (http_request_size_bytes empty_registry) as [[f|e] r'] eqn:C;
      [|discriminate C].
    exists f, r'. split; [reflexivity|].
    destruct (empty_content_length_inconsistent unique_names
                "http_request_size_bytes" "Content bytes of requests." "" ""
                true true true empty_registry r' f
                (info_of request_empty_length (Some response_340)) r')
      as (Hreq & _).
    apply (Hreq C); reflexivity.
  - destruct (http_response_size_bytes empty_registry) as [[f|e] r'] eqn:C;
      [|discriminate C].
    exists f, r'. split; [reflexivity|].
    destruct (empty_content_length_inconsistent unique_names
                "http_response_size_bytes" "Content bytes of responses." "" ""
                true true true empty_registry r' f
                (info_of request_120 (Some response_empty_length)) r')
      as (_ & Hresp & _).
    apply (Hresp C response_empty_length); reflexivity.
  - destruct (http_combined_size_bytes empty_registry) as [[f|e] r'] eqn:C;
      [|discriminate C].
    exists f, r'. split; [reflexivity|].
    pose proof (fun info =>
                  proj2 (proj2 (empty_content_length_inconsistent unique_names
                    "http_combined_size_bytes"
                    "Content bytes of requests and responses." "" ""
                    true true true empty_registry r' f info r')) C) as T.
    split.
    + destruct (T (info_of request_empty_length (Some response_empty_length))
                  response_empty_length eq_refl) as (Hskip & _).
      apply Hskip; [reflexivity | right; reflexivity].
    + destruct (T (info_of request_empty_length (Some response_340))
                  response_340 eq_refl) as (_ & _ & Hfall & _).
      apply (Hfall "340" 340%Z); reflexivity.
Defined.

(** ** An absent response *)

(** C1 does not hold of the code.  With [response = None] the closures of
    [response_size] and [combined_size] raise [AttributeError] where they
    read [info.response.headers], and the closure of [default] raises it
    after it counted the request and observed the request size, before it
    observes any latency. *)
Theorem absent_response_raises_AttributeError :
  let info := info_of request_120 None in
  (exists f r',
     http_response_size_bytes empty_registry = (Ok f, r')
     /\ f info r' = (Raise AttributeError, r'))
  /\ (exists f r',
        http_combined_size_bytes empty_registry = (Ok f, r')
        /\ f info r' = (Raise AttributeError, r'))
  /\ (exists f r',
        default unique_names "" "" default_latency_highr_buckets
          default_latency_lowr_buckets empty_registry = (Ok f, r')
        /\ fst (f info r') = Raise AttributeError
        /\ map snd (samples (snd (f info r'))) = [Inc; Observe (NInt 120)]).
Proof.
  cbv zeta. split; [|split].
  - eexists; eexists. split; [reflexivity|].
    rewrite response_size_instrumentation_eq. reflexivity.
  - eexists; eexists. split; [reflexivity|].
    rewrite combined_size_instrumentation_eq. reflexivity.
  - eexists; eexists. split; [cbv; reflexivity|]. split; reflexivity.
Qed.

(** ** The bundle of [default] *)

Section DefaultClosure.

Variables TOTAL IN_SIZE OUT_SIZE LATENCY_HIGHR LATENCY_LOWR : Metric.

Hypothesis TOTAL_labelnames : labelnames TOTAL = ["method"; "status"; "handler"].
Hypothesis IN_SIZE_labelnames : labelnames IN_SIZE = ["handler"].
Hypothesis OUT_SIZE_labelnames : labelnames OUT_SIZE = ["handler"].
Hypothesis LATENCY_HIGHR_labelnames : labelnames LATENCY_HIGHR = [].
Hypothesis LATENCY_LOWR_labelnames : labelnames LATENCY_LOWR = ["handler"].

(** One call, step by step: the counter first, then the request size, the
    response size and the two latency histograms; an exception keeps what
    was recorded before it. *)
Lemma default_instrumentation_eq (info : Info) (r0 : Registry) :
  default_instrumentation TOTAL IN_SIZE OUT_SIZE LATENCY_HIGHR LATENCY_LOWR
    info r0 =
  let handler := AttrStr (modified_handler info) in
  let duration := NFloat (modified_duration info) in
  let r1 :=
    recorded r0
      (Labelled TOTAL
         [AttrStr (method info); AttrStr (modified_status info); handler])
      Inc in
  match int (headers_get (Request.headers (request info)) "Content-Length"
               (PyInt 0)) with
  | Ok a =>
      let r2 := recorded r1 (Labelled IN_SIZE [handler]) (Observe (NInt a)) in
      match response info with
      | Some resp =>
          match int (headers_get (Response.headers resp) "Content-Length"
                       (PyInt 0)) with
          | Ok b =>
              (Ok tt,
               recorded
                 (recorded
                    (recorded r2 (Labelled OUT_SIZE [handler])
                       (Observe (NInt b)))
                    (Unlabelled LATENCY_HIGHR) (Observe duration))
                 (Labelled LATENCY_LOWR [handler]) (Observe duration))
          | Raise e => (Raise e, r2)
          end
      | None => (Raise AttributeError, r2)
      end
  | Raise e => (Raise e, r1)
  end.
Proof.
  unfold default_instrumentation, bind, labels, inc, observe, observable,
    response_headers.
  rewrite TOTAL_labelnames, IN_SIZE_labelnames, OUT_SIZE_labelnames,
    LATENCY_HIGHR_labelnames, LATENCY_LOWR_labelnames.
  cbn -[int headers_get].
  destruct (int (headers_get (Request.headers (request info)) _ _));
    [|reflexivity].
  cbn -[int headers_get].
  destruct (response info) as [resp|]; [|reflexivity].
  cbn -[int headers_get].
  destruct (int (headers_get (Response.headers resp) _ _)); reflexivity.
Qed.

End DefaultClosure.

(** C3. One call of the closure of [default] adds exactly one increment,
    on [http_requests_total], whatever the [Info]; where the response
    exists and the size headers that are there parse, it succeeds, the two
    latency histograms are observed with the same [modified_duration], and
    a missing [Content-Length] of the request or of the response is
    observed as 0. *)
Theorem default_counts_once_and_observes :
  forall (admits : list Metric -> Metric -> bool) (ns ss : string)
         (highr lowr : list Num) (r r' : Registry) (f : Info -> M unit),
    default admits ns ss highr lowr r = (Ok f, r') ->
    exists TOTAL IN_SIZE OUT_SIZE LATENCY_HIGHR LATENCY_LOWR : Metric,
      (kind TOTAL = KCounter /\ name TOTAL = "http_requests_total")
      /\ (kind LATENCY_HIGHR = KHistogram /\ kind LATENCY_LOWR = KHistogram)
      /\ forall (info : Info) (r0 : Registry),
           let handler := AttrStr (modified_handler info) in
           let duration := NFloat (modified_duration info) in
           let total :=
             Labelled TOTAL
               [AttrStr (method info); AttrStr (modified_status info); handler] in
           (exists rest,
              samples (snd (f info r0)) = samples r0 ++ (total, Inc) :: rest
              /\ Forall (fun sample => snd sample <> Inc) rest)
           /\ (forall resp a b,
                 response info = Some resp ->
                 int (headers_get (Request.headers (request info))
                        "Content-Length" (PyInt 0)) = Ok a ->
                 int (headers_get (Response.headers resp)
                        "Content-Length" (PyInt 0)) = Ok b ->
                 f info r0 =
                 (Ok tt,
                  {| collectors := collectors r0;
                     samples :=
                       samples r0 ++
                       [(total, Inc);
                        (Labelled IN_SIZE [handler], Observe (NInt a));
                        (Labelled OUT_SIZE [handler], Observe (NInt b));
                        (Unlabelled LATENCY_HIGHR, Observe duration);
                        (Labelled LATENCY_LOWR [handler], Observe duration)] |})
                 /\ (content_length_of (Request.headers (request info)) = None ->
                     a = 0%Z)
                 /\ (content_length_of (Response.headers resp) = None ->
                     b = 0%Z)).
Proof.
  intros admits ns ss highr lowr r r' f C.
  apply default_inv in C
    as (TOTAL & IN_SIZE & OUT_SIZE & LATENCY_HIGHR & LATENCY_LOWR & -> & _
        & (Tk & Tn & Tl) & (_ & _ & Il) & (_ & _ & Ol) & (Hk & _ & Hl & _)
        & (Lk & _ & Ll & _)).
  exists TOTAL, IN_SIZE, OUT_SIZE, LATENCY_HIGHR, LATENCY_LOWR.
  split; [now split|]. split; [now split|].
  intros info r0 handler duration total.
  rewrite (default_instrumentation_eq _ _ _ _ _ Tl Il Ol Hl Ll). cbv zeta.
  fold handler duration total. split.
  - destruct (int (headers_get (Request.headers (request info)) _ _)) as [a|e].
    + destruct (response info) as [resp|].
      * destruct (int (headers_get (Response.headers resp) _ _)) as [b|e].
        -- eexists. cbn. rewrite <- !app_assoc. cbn. split; [reflexivity|].
           repeat constructor; discriminate.
        -- eexists. cbn. rewrite <- !app_assoc. cbn. split; [reflexivity|].
           repeat constructor; discriminate.
      * eexists. cbn. rewrite <- !app_assoc. cbn. split; [reflexivity|].
        repeat constructor; discriminate.
    + exists []. cbn. split; [reflexivity | constructor].
  - intros resp a b -> Ha Hb. rewrite Ha, Hb. split; [|split].
    + unfold recorded. cbn. rewrite <- !app_assoc. reflexivity.
    + intros Hnone. rewrite headers_get_content_length, Hnone in Ha.
      now injection Ha.
    + intros Hnone. rewrite headers_get_content_length, Hnone in Hb.
      now injection Hb.
Qed.

Lemma default_counts_once_and_observes_witness :
  exists f r',
    default unique_names "" "" default_latency_highr_buckets
      default_latency_lowr_buckets empty_registry = (Ok f, r')
    /\ map snd (samples (snd (f (info_of request_bare (Some response_340)) r'))) =
       [Inc; Observe (NInt 0); Observe (NInt 340);
        Observe (NFloat 0.42); Observe (NFloat 0.42)].
Proof.
  destruct (default unique_names "" "" default_latency_highr_buckets
              default_latency_lowr_buckets empty_registry)
    as [[f|e] r'] eqn:C; [|discriminate C].
  exists f, r'. split; [reflexivity|].
  destruct (default_counts_once_and_observes _ _ _ _ _ _ _ _ C)
    as (TOTAL & IN_SIZE & OUT_SIZE & LATENCY_HIGHR & LATENCY_LOWR & _ & _ & T).
  destruct (T (info_of request_bare (Some response_340)) r') as (_ & Hall).
  destruct (Hall response_340 0%Z 340%Z eq_refl eq_refl eq_refl) as (E & _).
  rewrite E.
  replace (samples r') with (@nil (Series * Op))
    by (now injection C as _ <-).
  reflexivity.
Defined.

(** ** Labelled and label-free metrics *)

Lemma label_names_nil_iff (h m s : bool) :
  fst (_build_label_attribute_names h m s) = [] <->
  h = false /\ m = false /\ s = false.
Proof.
  destruct h, m, s; cbn; split; try discriminate; try (intros (? & ? & ?));
    try discriminate; repeat split.
Qed.

(** C7. Each of [latency], [request_size], [response_size] and
    [combined_size], once the registry admits its metric, registers that
    metric with exactly the label names the selector returned, which are
    none exactly when the three flags are off, and returns its closure;
    the closure records on the child bound to the selected values, and
    with the three flags off it records on the metric itself, with no
    binding step and no exception. *)
Theorem metric_registered_with_selected_labels :
  forall (admits : list Metric -> Metric -> bool) (name doc ns ss : string)
         (h m s : bool) (r : Registry),
    let label_names := fst (_build_label_attribute_names h m s) in
    let SUMMARY := summary_of name doc ns ss h m s in
    let HISTOGRAM := histogram_of name doc ns ss h m s in
    (labelnames SUMMARY = label_names
     /\ (forall nb, labelnames (HISTOGRAM nb) = label_names)
     /\ (label_names = [] <-> h = false /\ m = false /\ s = false))
    /\ (forall bs x, exists nb,
          normalize_buckets (bs ++ [x]) = Ok nb
          /\ (admits (collectors r) (HISTOGRAM nb) = true ->
              exists f,
                latency admits name doc ns ss h m s (bs ++ [x]) r =
                (Ok f, registered r (HISTOGRAM nb))
                /\ forall info r0,
                     f info r0 =
                     (Ok tt,
                      recorded r0 (bound_series (HISTOGRAM nb) h m s info)
                        (Observe (NFloat (modified_duration info))))))
    /\ (admits (collectors r) SUMMARY = true ->
        (exists f,
           request_size admits name doc ns ss h m s r =
           (Ok f, registered r SUMMARY)
           /\ forall info r0 v n,
                content_length_of (Request.headers (request info)) = Some v ->
                PyInt.of_str v = Some n ->
                f info r0 =
                (Ok tt,
                 recorded r0 (bound_series SUMMARY h m s info)
                   (Observe (NInt n))))
        /\ (exists f,
              response_size admits name doc ns ss h m s r =
              (Ok f, registered r SUMMARY)
              /\ forall info resp r0 v n,
                   response info = Some resp ->
                   content_length_of (Response.headers resp) = Some v ->
                   PyInt.of_str v = Some n ->
                   f info r0 =
                   (Ok tt,
                    recorded r0 (bound_series SUMMARY h m s info)
                      (Observe (NInt n))))
        /\ (exists f,
              combined_size admits name doc ns ss h m s r =
              (Ok f, registered r SUMMARY)
              /\ forall info resp r0 v n,
                   response info = Some resp ->
                   content_length_of (Request.headers (request info)) = Some v ->
                   content_length_of (Response.headers resp) = None ->
                   PyInt.of_str v = Some n ->
                   f info r0 =
                   (Ok tt,
                    recorded r0 (bound_series SUMMARY h m s info)
                      (Observe (NInt n)))))
    /\ (h = false -> m = false -> s = false ->
        forall METRIC info, bound_series METRIC h m s info = Unlabelled METRIC)
    /\ (forall METRIC info r0,
          labelnames METRIC = label_names ->
          h || m || s = true ->
          labels METRIC (selected_values h m s info) r0 =
          (Ok (Labelled METRIC (selected_values h m s info)), r0)).
Proof.
  intros admits name doc ns ss h m s r label_names SUMMARY HISTOGRAM.
  split; [|split; [|split; [|split]]].
  - split; [reflexivity|]. split; [reflexivity|]. apply label_names_nil_iff.
  - intros bs x.
    destruct (normalize_buckets_nonempty_app bs x) as (nb & E).
    exists nb. split; [exact E|]. intros A. eexists. split.
    + rewrite latency_eq, E. cbv zeta. fold (HISTOGRAM nb). rewrite A.
      reflexivity.
    + intros info r0. now apply latency_instrumentation_ok.
  - intros A. split; [|split].
    + eexists. split.
      * rewrite request_size_eq. fold SUMMARY. rewrite A. reflexivity.
      * intros info r0 v n Hv Hn.
        rewrite request_size_instrumentation_eq, Hv.
        apply observe_content_length_ok;
          [reflexivity | now apply int_PyStr_Some].
    + eexists. split.
      * rewrite response_size_eq. fold SUMMARY. rewrite A. reflexivity.
      * intros info resp r0 v n Hresp Hv Hn.
        rewrite response_size_instrumentation_eq, Hresp, Hv.
        apply observe_content_length_ok;
          [reflexivity | now apply int_PyStr_Some].
    + eexists. split.
      * rewrite combined_size_eq. fold SUMMARY. rewrite A. reflexivity.
      * intros info resp r0 v n Hresp Hv Hnone Hn.
        rewrite combined_size_instrumentation_eq, Hresp.
        rewrite !headers_get_content_length, Hv, Hnone. cbv zeta.
        rewrite (truthy_parsed _ _ Hn), (int_PyStr_Some _ _ Hn).
        simpl truthy. cbv iota.
        now apply observe_content_length_ok.
  - intros -> -> ->. reflexivity.
  - intros METRIC info r0 Hl E. now apply labels_selected_values.
Qed.

Lemma metric_registered_with_selected_labels_witness :
  (exists f,
     latency unique_names "http_request_duration_seconds"
       "Duration of HTTP requests in seconds" "" "" false false false
       default_latency_lowr_buckets empty_registry =
     (Ok f,
      registered empty_registry
        (histogram_of "http_request_duration_seconds"
           "Duration of HTTP requests in seconds" "" "" false false false
           (default_latency_lowr_buckets ++ [float_inf])))
     /\ f (info_of request_120 (Some response_340)) empty_registry =
        (Ok tt,
         recorded empty_registry
           (Unlabelled
              (histogram_of "http_request_duration_seconds"
                 "Duration of HTTP requests in seconds" "" "" false false false
                 (default_latency_lowr_buckets ++ [float_inf])))
           (Observe (NFloat 0.42))))
  /\ (exists f,
        request_size unique_names "http_request_size_bytes"
          "Content bytes of requests." "" "" false false false empty_registry =
        (Ok f,
         registered empty_registry
           (summary_of "http_request_size_bytes" "Content bytes of requests."
              "" "" false false false))
        /\ f (info_of request_120 (Some response_340)) empty_registry =
           (Ok tt,
            recorded empty_registry
              (Unlabelled
                 (summary_of "http_request_size_bytes"
                    "Content bytes of requests." "" "" false false false))
              (Observe (NInt 120)))).
Proof.
  pose proof (metric_registered_with_selected_labels unique_names
                "http_request_duration_seconds"
                "Duration of HTTP requests in seconds" "" ""
                false false false empty_registry) as (_ & HL & _).
  pose proof (metric_registered_with_selected_labels unique_names
                "http_request_size_bytes" "Content bytes of requests." "" ""
                false false false empty_registry) as (_ & _ & HS & _).
  split.
  - destruct (HL [NFloat 0.1; NFloat 0.5] (NInt 1)) as (nb & E & H).
    injection E as <-.
    destruct (H eq_refl) as (f & C & Hf).
    exists f. split; [exact C|]. apply Hf.
  - destruct (HS eq_refl) as ((f & C & Hf) & _).
    exists f. split; [exact C|]. apply (Hf _ _ "120" 120%Z); reflexivity.
Defined.


(** * Further properties *)

(** ** The label selector, continued *)

(** X1. The label names the selector returns are pairwise distinct, are
    drawn from handler, method and status, and there are as many of them
    as flags are set; the same holds of the field names, which are drawn
    from modified_handler, method and modified_status. *)
Theorem label_names_distinct_and_counted :
  forall h m s : bool,
    let label_names := fst (_build_label_attribute_names h m s) in
    let info_attribute_names := snd (_build_label_attribute_names h m s) in
    (NoDup label_names
     /\ List.length label_names = (Nat.b2n h + Nat.b2n m + Nat.b2n s)%nat
     /\ (forall l, In l label_names -> In l ["handler"; "method"; "status"]))
    /\ (NoDup info_attribute_names
        /\ List.length info_attribute_names =
           (Nat.b2n h + Nat.b2n m + Nat.b2n s)%nat
        /\ (forall a, In a info_attribute_names ->
              In a ["modified_handler"; "method"; "modified_status"])).
Proof.
  intros h m s; cbv zeta.
  assert (D3 : forall a b c : string,
             a <> b -> a <> c -> b <> c -> NoDup [a; b; c]).
  { intros a b c ab ac bc. repeat constructor; simpl; intuition congruence. }
  assert (D2 : forall a b : string, a <> b -> NoDup [a; b]).
  { intros a b ab. repeat constructor; simpl; intuition congruence. }
  assert (D1 : forall a : string, NoDup [a]).
  { intros a. repeat constructor; simpl; tauto. }
  destruct h, m, s; cbn; split;
    (split; [first [apply D3 | apply D2 | apply D1 | constructor]; discriminate|]);
    (split; [reflexivity|]); intros x Hx; simpl in *; tauto.
Qed.

Lemma label_names_distinct_and_counted_witness :
  NoDup (fst (_build_label_attribute_names true false true))
  /\ List.length (fst (_build_label_attribute_names true false true)) = 2%nat
  /\ NoDup (snd (_build_label_attribute_names true false true))
  /\ List.length (snd (_build_label_attribute_names true false true)) = 2%nat
  /\ In "modified_status" ["modified_handler"; "method"; "modified_status"].
Proof.
  destruct (label_names_distinct_and_counted true false true)
    as ((Hd & Hl & _) & (Hd' & Hl' & Hin)).
  split; [exact Hd|]. split; [exact Hl|]. split; [exact Hd'|].
  split; [exact Hl'|].
  apply Hin. cbn. right; left; reflexivity.
Defined.

(** X2. The selector loses nothing: each flag can be read back from the
    label names, so two calls that return the same label names, or the
    same field names, were made with the same three flags. *)
Theorem build_label_attribute_names_injective :
  forall h m s h' m' s' : bool,
    fst (_build_label_attribute_names h m s) =
      fst (_build_label_attribute_names h' m' s')
    \/ snd (_build_label_attribute_names h m s) =
         snd (_build_label_attribute_names h' m' s') ->
    h = h' /\ m = m' /\ s = s'.
Proof.
  intros h m s h' m' s' [E | E];
    destruct h, m, s, h', m', s'; cbn in E;
    try discriminate E; repeat split.
Qed.

Lemma build_label_attribute_names_injective_witness :
  true = true /\ false = false /\ true = true.
Proof.
  apply (build_label_attribute_names_injective true false true true false true).
  left. reflexivity.
Defined.

(** ** Bucket tuples of the registered histograms *)

Lemma ne_float_inf_false (x : Num) : ne_float_inf x = false -> x = float_inf.
Proof.
  unfold float_inf; destruct x as [z|f]; simpl; [discriminate|].
  rewrite negb_false_iff, FloatAxioms.eqb_spec. intros E.
  f_equal. apply Prim2SF_inj.
  change (Prim2SF infinity) with (S754_infinity false) in *.
  unfold SFeqb, SFcompare in E.
  destruct (Prim2SF f) as [[|]|[|]| |[|] ? ?]; try discriminate; reflexivity.
Qed.

(** What normalisation returns, whatever the tuple holds: nothing is
    removed, reordered or checked, and the result ends in infinity. *)
Lemma normalize_buckets_result (buckets nb : list Num) :
  normalize_buckets buckets = Ok nb ->
  buckets <> []
  /\ item_last nb = Ok float_inf
  /\ (nb = buckets \/ nb = buckets ++ [float_inf]).
Proof.
  destruct buckets as [|b bs]; [discriminate|].
  intros H. split; [discriminate|].
  destruct (exists_last (l := b :: bs)) as (t & x & E); [discriminate|].
  rewrite E, normalize_buckets_app in *.
  destruct (ne_float_inf x) eqn:Hx; injection H as <-.
  - split; [|now right; rewrite <- app_assoc].
    change (t ++ [x; float_inf]) with (t ++ [x] ++ [float_inf]).
    now rewrite app_assoc, item_last_app.
  - split; [|now left].
    rewrite item_last_app. f_equal. now apply ne_float_inf_false.
Qed.

(** X3. Whenever [latency] returns a closure, the bucket tuple was not
    empty and the histogram it registered has a tuple that ends in
    positive infinity and is the given tuple, as it was or with one
    infinity appended: nothing is sorted, removed or converted. *)
Theorem latency_histogram_ends_in_infinity :
  forall (admits : list Metric -> Metric -> bool) (name doc ns ss : string)
         (h m s : bool) (bucket_tuple : list Num) (r r' : Registry)
         (f : Info -> M unit),
    latency admits name doc ns ss h m s bucket_tuple r = (Ok f, r') ->
    exists nb METRIC,
      r' = registered r METRIC
      /\ kind METRIC = KHistogram
      /\ buckets METRIC = Some nb
      /\ bucket_tuple <> []
      /\ item_last nb = Ok float_inf
      /\ (nb = bucket_tuple \/ nb = bucket_tuple ++ [float_inf]).
Proof.
  intros admits name doc ns ss h m s bucket_tuple r r' f C.
  apply latency_inv in C as (nb & E & _ & ->).
  destruct (normalize_buckets_result _ _ E) as (Hne & Hlast & Hshape).
  exists nb, (histogram_of name doc ns ss h m s nb).
  repeat split; assumption.
Qed.

Lemma latency_histogram_ends_in_infinity_witness :
  exists METRIC,
    snd (latency unique_names "http_request_duration_seconds"
           "Duration of HTTP requests in seconds" "" "" true true true
           default_latency_lowr_buckets empty_registry) =
    registered empty_registry METRIC
    /\ buckets METRIC = Some [NFloat 0.1; NFloat 0.5; NInt 1; float_inf].
Proof.
  destruct (latency unique_names "http_request_duration_seconds"
              "Duration of HTTP requests in seconds" "" "" true true true
              default_latency_lowr_buckets empty_registry)
    as [[f|e] r'] eqn:C; [|discriminate C].
  destruct (latency_histogram_ends_in_infinity _ _ _ _ _ _ _ _ _ _ _ _ C)
    as (nb & METRIC & -> & _ & Hb & _ & Hl & [-> | ->]).
  - discriminate Hl.
  - exists METRIC. split; [reflexivity | exact Hb].
Defined.

(** X4. Whenever [default] returns a closure, neither tuple was empty
    and its two histograms carry their own tuple each, the high resolution
    one the first and the low resolution one the second, both ending in
    positive infinity and otherwise as given. *)
Theorem default_histograms_end_in_infinity :
  forall (admits : list Metric -> Metric -> bool) (ns ss : string)
         (highr lowr : list Num) (r r' : Registry) (f : Info -> M unit),
    default admits ns ss highr lowr r = (Ok f, r') ->
    exists nhb nlb TOTAL IN_SIZE OUT_SIZE LATENCY_HIGHR LATENCY_LOWR,
      collectors r' =
        collectors r ++ [TOTAL; IN_SIZE; OUT_SIZE; LATENCY_HIGHR; LATENCY_LOWR]
      /\ (name LATENCY_HIGHR = "http_request_duration_highr_seconds"
          /\ buckets LATENCY_HIGHR = Some nhb)
      /\ (name LATENCY_LOWR = "http_request_duration_seconds"
          /\ buckets LATENCY_LOWR = Some nlb)
      /\ (highr <> [] /\ item_last nhb = Ok float_inf
          /\ (nhb = highr \/ nhb = highr ++ [float_inf]))
      /\ (lowr <> [] /\ item_last nlb = Ok float_inf
          /\ (nlb = lowr \/ nlb = lowr ++ [float_inf])).
Proof.
  intros admits ns ss highr lowr r r' f C.
  apply default_inv in C
    as (TOTAL & IN_SIZE & OUT_SIZE & LATENCY_HIGHR & LATENCY_LOWR & _ & Hc
        & _ & _ & _ & (_ & Hn & _ & Hb) & (_ & Ln & _ & Lb)).
  destruct (normalize_buckets highr) as [nhb|] eqn:Eh; [|discriminate Hb].
  destruct (normalize_buckets lowr) as [nlb|] eqn:El; [|discriminate Lb].
  injection Hb as Hb. injection Lb as Lb.
  exists nhb, nlb, TOTAL, IN_SIZE, OUT_SIZE, LATENCY_HIGHR, LATENCY_LOWR.
  split; [exact Hc|]. split; [now split|]. split; [now split|].
  split; now apply normalize_buckets_result.
Qed.

Lemma default_histograms_end_in_infinity_witness :
  exists nhb nlb,
    map buckets
      (collectors
         (snd (default unique_names "" "" default_latency_highr_buckets
                 default_latency_lowr_buckets empty_registry))) =
    [None; None; None; Some nhb; Some nlb]
    /\ item_last nhb = Ok float_inf
    /\ item_last nlb = Ok float_inf.
Proof.
  destruct (default unique_names "" "" default_latency_highr_buckets
              default_latency_lowr_buckets empty_registry)
    as [[f|e] r'] eqn:C; [|discriminate C].
  destruct (default_histograms_end_in_infinity _ _ _ _ _ _ _ _ C)
    as (nhb & nlb & T & I & O & H & L & Hc & (_ & Hb) & (_ & Lb)
        & (_ & Hl & _) & (_ & Ll & _)).
  exists nhb, nlb. split; [|now split].
  cbn [snd]. rewrite Hc. cbn. rewrite Hb, Lb.
  assert (E : map buckets (collectors r') =
              map buckets [T; I; O; H; L]) by now rewrite Hc.
  cbn in E. rewrite Hb, Lb in E.
  assert (E' : firstn 3 (map buckets (collectors r')) = [None; None; None])
    by now injection C as _ <-.
  rewrite E in E'. cbn in E'. now injection E' as -> -> ->.
Defined.

(** ** What construction does to the registry *)

Definition default_names : list string :=
  ["http_requests_total"; "http_request_size_bytes";
   "http_response_size_bytes"; "http_request_duration_highr_seconds";
   "http_request_duration_seconds"].

(** The metrics of [metrics] that get registered when they are
    constructed one after the other on top of [registered_so_far]: each
    one the policy admits joins the registry, and the first one it refuses
    ends the sequence. *)
Fixpoint admitted_prefix (admits : list Metric -> Metric -> bool)
    (metrics registered_so_far : list Metric) : list Metric :=
  match metrics with
  | [] => []
  | METRIC :: rest =>
      if admits registered_so_far METRIC
      then METRIC :: admitted_prefix admits rest (registered_so_far ++ [METRIC])
      else []
  end.

(** The metrics [default] constructs, read off a call on the empty
    registry under the policy that admits everything. *)
Definition default_metrics (ns ss : string) (highr lowr : list Num)
  : list Metric :=
  collectors (snd (default (fun _ _ => true) ns ss highr lowr empty_registry)).

(** X5. With two non-empty tuples [default] constructs five metrics that
    depend on its arguments alone: the counter, the two summaries and the
    two histograms, named as in [default_names], under the namespace and
    subsystem given, the histograms with the normalised tuples.  Whatever
    the registry policy, a call records no sample, keeps the collectors it
    found and registers the five in this order up to the first one the
    policy refuses: those before it stay registered, it and those after
    it are not.  The call returns a closure when all five were admitted
    and raises [ValueError] otherwise. *)
Theorem default_registers_in_order :
  forall (ns ss : string) (highr lowr nhb nlb : list Num),
    normalize_buckets highr = Ok nhb ->
    normalize_buckets lowr = Ok nlb ->
    let five := default_metrics ns ss highr lowr in
    (map name five = default_names
     /\ map kind five = [KCounter; KSummary; KSummary; KHistogram; KHistogram]
     /\ map buckets five = [None; None; None; Some nhb; Some nlb]
     /\ Forall (fun METRIC => namespace METRIC = ns /\ subsystem METRIC = ss)
          five)
    /\ forall (admits : list Metric -> Metric -> bool) (r : Registry),
         let out := default admits ns ss highr lowr r in
         let added := admitted_prefix admits five (collectors r) in
         snd out =
           {| collectors := collectors r ++ added; samples := samples r |}
         /\ (added = five -> exists f, fst out = Ok f)
         /\ (added <> five -> fst out = Raise ValueError).
Proof.
  intros ns ss highr lowr nhb nlb Eh El.
  unfold normalize_buckets in Eh, El.
  destruct (item_last highr) as [a|] eqn:Ia; [|discriminate Eh].
  destruct (item_last lowr) as [b|] eqn:Ib; [|discriminate El].
  assert (Eh' : (if ne_float_inf a then highr ++ [float_inf] else highr) = nhb)
    by (destruct (ne_float_inf a); congruence).
  assert (El' : (if ne_float_inf b then lowr ++ [float_inf] else lowr) = nlb)
    by (destruct (ne_float_inf b); congruence).
  unfold default_metrics, default. rewrite Ia, Ib. simpl lift.
  rewrite !bind_ret. cbv beta zeta. rewrite Eh', El'.
  unfold bind, Counter, Summary, Histogram, register, ret.
  cbn [snd fst collectors registered empty_registry app].
  split.
  { split; [reflexivity|]. split; [reflexivity|]. split; [reflexivity|].
    repeat constructor. }
  intros admits r. cbv beta iota zeta. rewrite ?Eh', ?El'.
  cbn [admitted_prefix].
  repeat (match goal with
          | |- context [admits ?c ?x] => destruct (admits c x)
          end;
          unfold registered; cbv beta iota zeta;
          cbn [snd fst collectors samples app admitted_prefix]);
    (split; [rewrite <- ?app_assoc, ?app_nil_r; destruct r; reflexivity|]);
    (split; [ intros H; first [discriminate H | eexists; reflexivity]
            | intros H; first [reflexivity | now contradiction H] ]).
Qed.

(** The registry after [response_size] registered its metric under its
    default name. *)
Definition registry_with_response_size : Registry :=
  snd (http_response_size_bytes empty_registry).

Lemma default_registers_in_order_witness :
  map name
    (admitted_prefix unique_names
       (default_metrics "" "" default_latency_highr_buckets
          default_latency_lowr_buckets)
       (collectors registry_with_response_size)) =
    ["http_requests_total"; "http_request_size_bytes"]
  /\ fst (default unique_names "" "" default_latency_highr_buckets
            default_latency_lowr_buckets registry_with_response_size) =
     Raise ValueError
  /\ map name
       (collectors
          (snd (default unique_names "" "" default_latency_highr_buckets
                  default_latency_lowr_buckets registry_with_response_size))) =
     ["http_response_size_bytes"; "http_requests_total";
      "http_request_size_bytes"].
Proof.
  split; [vm_compute; reflexivity|].
  destruct (default_registers_in_order "" ""
              default_latency_highr_buckets default_latency_lowr_buckets
              (default_latency_highr_buckets ++ [float_inf])
              (default_latency_lowr_buckets ++ [float_inf])
              eq_refl eq_refl) as (_ & T).
  destruct (T unique_names registry_with_response_size) as (Hs & _ & Hr).
  split.
  - apply Hr. intros E. apply (f_equal (@List.length Metric)) in E.
    vm_compute in E. discriminate E.
  - rewrite Hs. vm_compute. reflexivity.
Defined.

(** ** What a call of a closure does to the registry *)

(** A sample fits its metric when it is recorded on the metric itself and
    the metric has no label names, or on a child whose values are the
    [Info] fields of the metric's label names, position by position. *)
Definition fits (info : Info) (sample : Series * Op) : Prop :=
  match fst sample with
  | Unlabelled METRIC => labelnames METRIC = []
  | Labelled METRIC labelvalues =>
      labelnames METRIC <> []
      /\ labelvalues = map (label_value info) (labelnames METRIC)
  end.

Definition metric_of (series : Series) : Metric :=
  match series with
  | Unlabelled METRIC => METRIC
  | Labelled METRIC _ => METRIC
  end.

Lemma bound_series_fits (METRIC : Metric) (h m s : bool) (info : Info)
    (o : Op) :
  labelnames METRIC = fst (_build_label_attribute_names h m s) ->
  fits info (bound_series METRIC h m s info, o).
Proof.
  unfold fits, bound_series. intros E.
  destruct h, m, s; cbn in *; rewrite E; cbn;
    first [reflexivity | split; [discriminate | reflexivity]].
Qed.

Lemma observe_content_length_cases (h m s : bool) (METRIC : Metric)
    (info : Info) (content_length : PyVal) (r : Registry) :
  labelnames METRIC = fst (_build_label_attribute_names h m s) ->
  observe_content_length METRIC (fst (_build_label_attribute_names h m s))
    (snd (_build_label_attribute_names h m s)) info content_length r =
  match int content_length with
  | Ok n =>
      (Ok tt, recorded r (bound_series METRIC h m s info) (Observe (NInt n)))
  | Raise e => (Raise e, r)
  end.
Proof.
  intros E. destruct (int content_length) as [n|e] eqn:Hn.
  - now apply observe_content_length_ok.
  - now apply observe_content_length_raise.
Qed.

(** The three shapes the result of a call of a single-metric closure
    takes in this model. *)
Definition outcome_shape (info : Info) (r0 : Registry)
    (out : Result unit * Registry) : Prop :=
  (exists e, out = (Raise e, r0))
  \/ out = (Ok tt, r0)
  \/ (exists series amount,
        out = (Ok tt, recorded r0 series (Observe amount))
        /\ fits info (series, Observe amount)).

Lemma observe_content_length_outcome (h m s : bool) (METRIC : Metric)
    (info : Info) (content_length : PyVal) (r0 : Registry) :
  labelnames METRIC = fst (_build_label_attribute_names h m s) ->
  outcome_shape info r0
    (observe_content_length METRIC (fst (_build_label_attribute_names h m s))
       (snd (_build_label_attribute_names h m s)) info content_length r0).
Proof.
  intros E. rewrite observe_content_length_cases by exact E.
  destruct (int content_length) as [n|e].
  - right; right. eexists; eexists. split; [reflexivity|].
    now apply bound_series_fits.
  - left. now exists e.
Qed.

(** What a call did to the collectors and to the samples: the collectors
    are those found, and either the call raised and recorded no sample, or
    it returned and recorded no sample, or it returned and appended one
    observation that fits its metric. *)
Definition all_or_nothing (info : Info) (r0 : Registry)
    (out : Result unit * Registry) : Prop :=
  collectors (snd out) = collectors r0
  /\ ((exists e, fst out = Raise e /\ samples (snd out) = samples r0)
      \/ (fst out = Ok tt /\ samples (snd out) = samples r0)
      \/ (fst out = Ok tt
          /\ exists series amount,
               samples (snd out) = samples r0 ++ [(series, Observe amount)]
               /\ fits info (series, Observe amount))).

Lemma outcome_shape_all_or_nothing (info : Info) (r0 : Registry)
    (out : Result unit * Registry) :
  outcome_shape info r0 out -> all_or_nothing info r0 out.
Proof.
  intros [[e ->] | [-> | (series & amount & -> & F)]]; split;
    try reflexivity.
  - left. exists e. split; reflexivity.
  - right; left. split; reflexivity.
  - right; right. split; [reflexivity|].
    exists series, amount. split; [reflexivity | exact F].
Qed.

(** X6. The samples a call of the closure of [latency], [request_size],
    [response_size] or [combined_size] records are all or nothing: when
    the call raises, no sample was recorded; when it returns, it recorded
    either nothing or exactly one observation, appended after the samples
    it found, on a series that fits the metric's label names.  The
    collectors are never changed and no earlier sample is touched.
    (Binding a child with [labels], which a closure does before it parses
    the header, records no sample.) *)
Theorem single_metric_closure_all_or_nothing :
  forall (admits : list Metric -> Metric -> bool) (name doc ns ss : string)
         (h m s : bool) (r r' : Registry) (f : Info -> M unit),
    (exists bucket_tuple,
       latency admits name doc ns ss h m s bucket_tuple r = (Ok f, r'))
    \/ request_size admits name doc ns ss h m s r = (Ok f, r')
    \/ response_size admits name doc ns ss h m s r = (Ok f, r')
    \/ combined_size admits name doc ns ss h m s r = (Ok f, r') ->
    forall (info : Info) (r0 : Registry),
      all_or_nothing info r0 (f info r0).
Proof.
  intros admits name doc ns ss h m s r r' f [[bt C] | [C | [C | C]]] info r0;
    apply outcome_shape_all_or_nothing.
  - apply latency_inv in C as (nb & _ & -> & _).
    rewrite latency_instrumentation_ok by reflexivity.
    right; right. eexists; eexists. split; [reflexivity|].
    now apply bound_series_fits.
  - apply request_size_inv in C as [-> _].
    rewrite request_size_instrumentation_eq.
    destruct (content_length_of _); [|right; left; reflexivity].
    now apply observe_content_length_outcome.
  - apply response_size_inv in C as [-> _].
    rewrite response_size_instrumentation_eq.
    destruct (response info) as [resp|]; [|left; now eexists].
    destruct (content_length_of _); [|right; left; reflexivity].
    now apply observe_content_length_outcome.
  - apply combined_size_inv in C as [-> _].
    rewrite combined_size_instrumentation_eq.
    destruct (response info) as [resp|]; [|left; now eexists].
    cbv zeta.
    destruct (truthy (headers_get (Request.headers (request info)) _ _));
      destruct (truthy (headers_get (Response.headers resp) _ _));
      repeat match goal with
             | |- context [match int ?v with _ => _ end] =>
                 destruct (int v); [|left; now eexists]
             end;
      first [ now apply observe_content_length_outcome
            | right; left; reflexivity ].
Qed.

Lemma single_metric_closure_all_or_nothing_witness :
  exists f r',
    http_response_size_bytes empty_registry = (Ok f, r')
    /\ samples (snd (f (info_of request_120 (Some response_empty_length)) r')) =
       samples r'
    /\ collectors (snd (f (info_of request_120 (Some response_340)) r')) =
       collectors r'.
Proof.
  destruct (http_response_size_bytes empty_registry) as [[f|e] r'] eqn:C;
    [|discriminate C].
  exists f, r'. split; [reflexivity|].
  pose proof (single_metric_closure_all_or_nothing unique_names
                "http_response_size_bytes" "Content bytes of responses."
                "" "" true true true empty_registry r' f
                (or_intror (or_intror (or_introl C)))) as T.
  split.
  - destruct (T (info_of request_120 (Some response_empty_length)) r')
      as (_ & [(e & _ & Hs) | [(_ & Hs) | (Hok & _)]]);
      [exact Hs | exact Hs |].
    exfalso. injection C as <- _.
    rewrite response_size_instrumentation_eq in Hok. discriminate Hok.
  - destruct (T (info_of request_120 (Some response_340)) r') as (Hc & _).
    exact Hc.
Defined.

(** X7. Whatever the [Info] and the outcome, a call of the closure of
    [default] leaves the collectors alone and only appends samples: first
    the counter, then request size, response size, high and low resolution
    latency, stopping where an exception is raised and keeping what was
    recorded before it.  At least the counter is recorded, every sample
    fits its metric's label names, and the call returns exactly when all
    five samples were recorded. *)
Theorem default_closure_records_in_order :
  forall (admits : list Metric -> Metric -> bool) (ns ss : string)
         (highr lowr : list Num) (r r' : Registry) (f : Info -> M unit),
    default admits ns ss highr lowr r = (Ok f, r') ->
    forall (info : Info) (r0 : Registry),
      let out := f info r0 in
      collectors (snd out) = collectors r0
      /\ exists new,
           samples (snd out) = samples r0 ++ new
           /\ Forall (fits info) new
           /\ (exists rest,
                 map (fun sample => name (metric_of (fst sample))) new ++ rest =
                 default_names)
           /\ (1 <= List.length new)%nat
           /\ (fst out = Ok tt <-> List.length new = 5%nat).
Proof.
  intros admits ns ss highr lowr r r' f C info r0.
  apply default_inv in C
    as (TOTAL & IN_SIZE & OUT_SIZE & LATENCY_HIGHR & LATENCY_LOWR & -> & _
        & (_ & Tn & Tl) & (_ & In_ & Il) & (_ & On & Ol) & (_ & Hn & Hl & _)
        & (_ & Ln & Ll & _)).
  cbv zeta.
  rewrite (default_instrumentation_eq _ _ _ _ _ Tl Il Ol Hl Ll). cbv zeta.
  assert (FT : forall o, fits info
            (Labelled TOTAL [AttrStr (method info);
                             AttrStr (modified_status info);
                             AttrStr (modified_handler info)], o)).
  { intros o. unfold fits. cbn. rewrite Tl. split; [discriminate|reflexivity]. }
  assert (FH : forall M o, labelnames M = ["handler"] ->
            fits info (Labelled M [AttrStr (modified_handler info)], o)).
  { intros M o E. unfold fits. cbn. rewrite E.
    split; [discriminate|reflexivity]. }
  assert (FU : forall o, fits info (Unlabelled LATENCY_HIGHR, o)).
  { intros o. exact Hl. }
  set (total := (Labelled TOTAL [AttrStr (method info);
                                 AttrStr (modified_status info);
                                 AttrStr (modified_handler info)], Inc)).
  set (handler := [AttrStr (modified_handler info)]).
  destruct (int (headers_get (Request.headers (request info)) _ _)) as [a|e];
    [destruct (response info) as [resp|];
       [destruct (int (headers_get (Response.headers resp) _ _)) as [b|e]|]|];
    (split; [reflexivity|]).
  - exists [total; (Labelled IN_SIZE handler, Observe (NInt a));
            (Labelled OUT_SIZE handler, Observe (NInt b));
            (Unlabelled LATENCY_HIGHR, Observe (NFloat (modified_duration info)));
            (Labelled LATENCY_LOWR handler,
             Observe (NFloat (modified_duration info)))].
    split; [cbn; now rewrite <- !app_assoc|].
    split; [repeat (apply Forall_cons || apply Forall_nil);
            first [apply FT | apply FH; assumption | apply FU]|].
    split; [exists []; cbn; now rewrite Tn, In_, On, Hn, Ln|].
    split; [cbn; lia|]. split; reflexivity.
  - exists [total; (Labelled IN_SIZE handler, Observe (NInt a))].
    split; [cbn; now rewrite <- !app_assoc|].
    split; [repeat (apply Forall_cons || apply Forall_nil);
            first [apply FT | apply FH; assumption | apply FU]|].
    split; [eexists; cbn; rewrite Tn, In_; reflexivity|].
    split; [cbn; lia|]. split; intros H; discriminate H.
  - exists [total; (Labelled IN_SIZE handler, Observe (NInt a))].
    split; [cbn; now rewrite <- !app_assoc|].
    split; [repeat (apply Forall_cons || apply Forall_nil);
            first [apply FT | apply FH; assumption | apply FU]|].
    split; [eexists; cbn; rewrite Tn, In_; reflexivity|].
    split; [cbn; lia|]. split; intros H; discriminate H.
  - exists [total].
    split; [reflexivity|].
    split; [repeat (apply Forall_cons || apply Forall_nil);
            first [apply FT | apply FH; assumption | apply FU]|].
    split; [eexists; cbn; rewrite Tn; reflexivity|].
    split; [cbn; lia|]. split; intros H; discriminate H.
Qed.

Lemma default_closure_records_in_order_witness :
  exists f r',
    default unique_names "" "" default_latency_highr_buckets
      default_latency_lowr_buckets empty_registry = (Ok f, r')
    /\ collectors (snd (f (info_of request_malformed None) r')) = collectors r'
    /\ exists new,
         samples (snd (f (info_of request_malformed None) r')) =
         samples r' ++ new
         /\ (1 <= List.length new)%nat.
Proof.
  destruct (default unique_names "" "" default_latency_highr_buckets
              default_latency_lowr_buckets empty_registry)
    as [[f|e] r'] eqn:C; [|discriminate C].
  exists f, r'. split; [reflexivity|].
  destruct (default_closure_records_in_order _ _ _ _ _ _ _ _ C
              (info_of request_malformed None) r')
    as (Hc & new & Hs & _ & _ & Hl & _).
  split; [exact Hc|]. exists new. split; assumption.
Defined.

(** X8. A size header that is there and does not parse stops the closure
    of [default] with [ValueError] part of the way: for the request's
    header after the counter alone was incremented, for the response's
    header after the counter and the request size were recorded.  Neither
    latency histogram is observed. *)
Theorem default_unparsable_header_stops_midway :
  forall (admits : list Metric -> Metric -> bool) (ns ss : string)
         (highr lowr : list Num) (r r' : Registry) (f : Info -> M unit),
    default admits ns ss highr lowr r = (Ok f, r') ->
    exists TOTAL IN_SIZE : Metric,
      name TOTAL = "http_requests_total"
      /\ name IN_SIZE = "http_request_size_bytes"
      /\ forall (info : Info) (r0 : Registry),
           let handler := AttrStr (modified_handler info) in
           let counted :=
             recorded r0
               (Labelled TOTAL
                  [AttrStr (method info); AttrStr (modified_status info);
                   handler]) Inc in
           (forall v,
              content_length_of (Request.headers (request info)) = Some v ->
              PyInt.of_str v = None ->
              f info r0 = (Raise ValueError, counted))
           /\ (forall resp a v,
                 response info = Some resp ->
                 int (headers_get (Request.headers (request info))
                        "Content-Length" (PyInt 0)) = Ok a ->
                 content_length_of (Response.headers resp) = Some v ->
                 PyInt.of_str v = None ->
                 f info r0 =
                 (Raise ValueError,
                  recorded counted (Labelled IN_SIZE [handler])
                    (Observe (NInt a)))).
Proof.
  intros admits ns ss highr lowr r r' f C.
  apply default_inv in C
    as (TOTAL & IN_SIZE & OUT_SIZE & LATENCY_HIGHR & LATENCY_LOWR & -> & _
        & (_ & Tn & Tl) & (_ & In_ & Il) & (_ & _ & Ol) & (_ & _ & Hl & _)
        & (_ & _ & Ll & _)).
  exists TOTAL, IN_SIZE. split; [exact Tn|]. split; [exact In_|].
  intros info r0 handler counted.
  rewrite (default_instrumentation_eq _ _ _ _ _ Tl Il Ol Hl Ll). cbv zeta.
  fold handler. fold counted. split.
  - intros v Hv Hn.
    rewrite headers_get_content_length, Hv, (int_PyStr_None _ Hn).
    reflexivity.
  - intros resp a v -> Ha Hv Hn.
    rewrite Ha, headers_get_content_length, Hv, (int_PyStr_None _ Hn).
    reflexivity.
Qed.

Lemma default_unparsable_header_stops_midway_witness :
  exists f r',
    default unique_names "" "" default_latency_highr_buckets
      default_latency_lowr_buckets empty_registry = (Ok f, r')
    /\ fst (f (info_of request_malformed (Some response_340)) r') =
       Raise ValueError
    /\ map snd (samples (snd (f (info_of request_malformed
                                   (Some response_340)) r'))) = [Inc]
    /\ map snd (samples (snd (f (info_of request_120
                                   (Some response_empty_length)) r'))) =
       [Inc; Observe (NInt 120)].
Proof.
  destruct (default unique_names "" "" default_latency_highr_buckets
              default_latency_lowr_buckets empty_registry)
    as [[f|e] r'] eqn:C; [|discriminate C].
  exists f, r'. split; [reflexivity|].
  destruct (default_unparsable_header_stops_midway _ _ _ _ _ _ _ _ C)
    as (TOTAL & IN_SIZE & _ & _ & T).
  assert (S0 : samples r' = []) by now injection C as _ <-.
  destruct (T (info_of request_malformed (Some response_340)) r')
    as (Hreq & _).
  destruct (T (info_of request_120 (Some response_empty_length)) r')
    as (_ & Hresp).
  rewrite (Hreq "12 bytes" eq_refl eq_refl).
  rewrite (Hresp response_empty_length 120%Z "" eq_refl eq_refl eq_refl eq_refl).
  cbn [fst snd samples recorded]. rewrite S0.
  repeat split.
Defined.

(** ** What the closures read *)

Lemma bound_series_selected (METRIC : Metric) (h m s : bool)
    (info info' : Info) :
  selected_values h m s info' = selected_values h m s info ->
  bound_series METRIC h m s info' = bound_series METRIC h m s info.
Proof. unfold bound_series. now intros ->. Qed.

(** X9. The closure of [combined_size] treats the two headers alike:
    with the [Content-Length] values of request and response exchanged,
    and the selected label fields the same, a call has the same outcome
    and records the same. *)
Theorem combined_size_symmetric :
  forall (admits : list Metric -> Metric -> bool) (name doc ns ss : string)
         (h m s : bool) (r r' : Registry) (f : Info -> M unit),
    combined_size admits name doc ns ss h m s r = (Ok f, r') ->
    forall (info info' : Info) (resp resp' : Response.t) (r0 : Registry),
      response info = Some resp ->
      response info' = Some resp' ->
      content_length_of (Request.headers (request info')) =
        content_length_of (Response.headers resp) ->
      content_length_of (Response.headers resp') =
        content_length_of (Request.headers (request info)) ->
      selected_values h m s info' = selected_values h m s info ->
      f info' r0 = f info r0.
Proof.
  intros admits name doc ns ss h m s r r' f C info info' resp resp' r0
         Hresp Hresp' E1 E2 Es.
  apply combined_size_inv in C as [-> _].
  rewrite !combined_size_instrumentation_eq, Hresp, Hresp'.
  rewrite !headers_get_content_length, E1, E2. cbv zeta.
  assert (O : forall n,
             observe_content_length
               (summary_of name doc ns ss h m s)
               (fst (_build_label_attribute_names h m s))
               (snd (_build_label_attribute_names h m s)) info' (PyInt n) r0 =
             observe_content_length
               (summary_of name doc ns ss h m s)
               (fst (_build_label_attribute_names h m s))
               (snd (_build_label_attribute_names h m s)) info (PyInt n) r0).
  { intros n. rewrite !observe_content_length_cases by reflexivity.
    now rewrite (bound_series_selected _ _ _ _ _ _ Es). }
  destruct (content_length_of (Request.headers (request info))) as [a|];
    destruct (content_length_of (Response.headers resp)) as [b|];
    simpl truthy; cbv iota;
    repeat match goal with
           | |- context [negb (?x =? "")] => destruct (negb (x =? ""))
           end;
    simpl int;
    repeat match goal with
           | |- context [PyInt.of_str ?x] => destruct (PyInt.of_str x)
           end;
    rewrite ?O; try reflexivity.
  now rewrite Z.add_comm.
Qed.

Lemma combined_size_symmetric_witness :
  exists f r',
    http_combined_size_bytes empty_registry = (Ok f, r')
    /\ f (info_of (Request.Build [("content-length", "340")])
            (Some (Response.Build [("content-length", "")]))) r' =
       f (info_of request_empty_length (Some response_340)) r'.
Proof.
  destruct (http_combined_size_bytes empty_registry) as [[f|e] r'] eqn:C;
    [|discriminate C].
  exists f, r'. split; [reflexivity|].
  eapply (combined_size_symmetric _ _ _ _ _ _ _ _ _ _ _ C); reflexivity.
Defined.

(** X10. Each single-metric closure reads only what it observes and the
    selected label fields.  Two [Info]s that agree on the selected fields
    get the same outcome from the closure of [latency] when they agree on
    [modified_duration], from that of [request_size] when their requests
    agree on [Content-Length], and from that of [response_size] when their
    responses, both present, agree on it: [latency] and [request_size]
    never look at the response, so its absence does not disturb them. *)
Theorem single_metric_closure_reads_only_its_inputs :
  forall (admits : list Metric -> Metric -> bool) (name doc ns ss : string)
         (h m s : bool) (r r' : Registry) (f : Info -> M unit)
         (info info' : Info) (r0 : Registry),
    selected_values h m s info' = selected_values h m s info ->
    ((exists bucket_tuple,
        latency admits name doc ns ss h m s bucket_tuple r = (Ok f, r')) ->
     modified_duration info' = modified_duration info ->
     f info' r0 = f info r0)
    /\ (request_size admits name doc ns ss h m s r = (Ok f, r') ->
        content_length_of (Request.headers (request info')) =
          content_length_of (Request.headers (request info)) ->
        f info' r0 = f info r0)
    /\ (response_size admits name doc ns ss h m s r = (Ok f, r') ->
        forall resp resp',
          response info = Some resp ->
          response info' = Some resp' ->
          content_length_of (Response.headers resp') =
            content_length_of (Response.headers resp) ->
          f info' r0 = f info r0).
Proof.
  intros admits name doc ns ss h m s r r' f info info' r0 Es.
  split; [|split].
  - intros [bt C] Ed. apply latency_inv in C as (nb & _ & -> & _).
    rewrite !latency_instrumentation_ok by reflexivity.
    now rewrite Ed, (bound_series_selected _ _ _ _ _ _ Es).
  - intros C E. apply request_size_inv in C as [-> _].
    rewrite !request_size_instrumentation_eq, E.
    destruct (content_length_of (Request.headers (request info)));
      [|reflexivity].
    rewrite !observe_content_length_cases by reflexivity.
    now rewrite (bound_series_selected _ _ _ _ _ _ Es).
  - intros C resp resp' Hresp Hresp' E. apply response_size_inv in C as [-> _].
    rewrite !response_size_instrumentation_eq, Hresp, Hresp', E.
    destruct (content_length_of (Response.headers resp)); [|reflexivity].
    rewrite !observe_content_length_cases by reflexivity.
    now rewrite (bound_series_selected _ _ _ _ _ _ Es).
Qed.

Lemma single_metric_closure_reads_only_its_inputs_witness :
  exists f r',
    http_request_size_bytes empty_registry = (Ok f, r')
    /\ f (info_of request_120 None) r' =
       f (info_of request_120 (Some response_340)) r'.
Proof.
  destruct (http_request_size_bytes empty_registry) as [[f|e] r'] eqn:C;
    [|discriminate C].
  exists f, r'. split; [reflexivity|].
  destruct (single_metric_closure_reads_only_its_inputs unique_names
              "http_request_size_bytes" "Content bytes of requests." "" ""
              true true true empty_registry r' f
              (info_of request_120 (Some response_340))
              (info_of request_120 None) r' eq_refl) as (_ & Hreq & _).
  apply Hreq; [exact C | reflexivity].
Defined.

(** ** Calling a closure again and again *)

(** [n] calls of a closure with the same [Info], one after the other. *)
Fixpoint call_times (f : Info -> M unit) (info : Info) (n : nat) : M unit :=
  match n with
  | O => ret tt
  | S k => f info ;; call_times f info k
  end.

(** X11. The closure of [latency] keeps no state of its own and never
    fails: [n] calls with the same [Info] append [n] times the same
    observation of [modified_duration], on the same series, and nothing
    else changes. *)
Theorem latency_counts_every_call :
  forall (admits : list Metric -> Metric -> bool) (name doc ns ss : string)
         (h m s : bool) (bucket_tuple : list Num) (r r' : Registry)
         (f : Info -> M unit),
    latency admits name doc ns ss h m s bucket_tuple r = (Ok f, r') ->
    exists METRIC,
      r' = registered r METRIC
      /\ forall (info : Info) (n : nat) (r0 : Registry),
           call_times f info n r0 =
           (Ok tt,
            {| collectors := collectors r0;
               samples :=
                 samples r0 ++
                 repeat (bound_series METRIC h m s info,
                         Observe (NFloat (modified_duration info))) n |}).
Proof.
  intros admits name doc ns ss h m s bucket_tuple r r' f C.
  apply latency_inv in C as (nb & _ & -> & ->).
  exists (histogram_of name doc ns ss h m s nb). split; [reflexivity|].
  intros info n. induction n as [|n IH]; intros r0.
  - cbn. rewrite app_nil_r. now destruct r0.
  - cbn [call_times]. unfold bind.
    rewrite latency_instrumentation_ok by reflexivity.
    rewrite IH. cbn. now rewrite <- app_assoc.
Qed.

Lemma latency_counts_every_call_witness :
  exists f r',
    latency unique_names "http_request_duration_seconds"
      "Duration of HTTP requests in seconds" "" "" true true true
      DEFAULT_BUCKETS empty_registry = (Ok f, r')
    /\ map snd (samples (snd (call_times f
                                (info_of request_bare None) 3 r'))) =
       [Observe (NFloat 0.42); Observe (NFloat 0.42); Observe (NFloat 0.42)].
Proof.
  destruct (latency unique_names "http_request_duration_seconds"
              "Duration of HTTP requests in seconds" "" "" true true true
              DEFAULT_BUCKETS empty_registry) as [[f|e] r'] eqn:C;
    [|discriminate C].
  exists f, r'. split; [reflexivity|].
  destruct (latency_counts_every_call _ _ _ _ _ _ _ _ _ _ _ _ C)
    as (METRIC & -> & T).
  rewrite T. reflexivity.
Defined.

(** ** The bundle and the single-metric functions *)

(** The samples a call added to those of [r0], and what a sample says
    apart from the metric it is recorded on. *)
Definition new_samples {A : Type} (r0 : Registry) (out : Result A * Registry)
  : list (Series * Op) :=
  skipn (List.length (samples r0)) (samples (snd out)).

Definition reading (sample : Series * Op) : list Attr * Op :=
  (match fst sample with
   | Labelled _ labelvalues => labelvalues
   | Unlabelled _ => []
   end,
   snd sample).

Lemma skipn_length_app {A : Type} (l l' : list A) :
  skipn (List.length l) (l ++ l') = l'.
Proof. induction l as [|x l IH]; [reflexivity | exact IH]. Qed.

Lemma new_samples_recorded {A : Type} (r0 : Registry) (res : Result A)
    (series : Series) (o : Op) :
  new_samples r0 (res, recorded r0 series o) = [(series, o)].
Proof. unfold new_samples. cbn. apply skipn_length_app. Qed.

(** X12. Where the response exists and both [Content-Length] headers are
    there and parse, one call of the closure of [default] records, after
    its counter, label values and amounts that are exactly those of the
    closures of [request_size] and [response_size] built with the handler
    label alone, of [latency] built without labels and of [latency] built
    with the handler label alone, in this order. *)
Theorem default_bundles_single_metric_closures :
  forall (admits : list Metric -> Metric -> bool)
         (ns ss : string) (highr lowr : list Num) (r r' : Registry)
         (f : Info -> M unit)
         (name1 doc1 ns1 ss1 : string) (r1 r1' : Registry)
         (g_in : Info -> M unit)
         (name2 doc2 ns2 ss2 : string) (r2 r2' : Registry)
         (g_out : Info -> M unit)
         (name3 doc3 ns3 ss3 : string) (buckets3 : list Num)
         (r3 r3' : Registry) (g_highr : Info -> M unit)
         (name4 doc4 ns4 ss4 : string) (buckets4 : list Num)
         (r4 r4' : Registry) (g_lowr : Info -> M unit),
    default admits ns ss highr lowr r = (Ok f, r') ->
    request_size admits name1 doc1 ns1 ss1 true false false r1 =
      (Ok g_in, r1') ->
    response_size admits name2 doc2 ns2 ss2 true false false r2 =
      (Ok g_out, r2') ->
    latency admits name3 doc3 ns3 ss3 false false false buckets3 r3 =
      (Ok g_highr, r3') ->
    latency admits name4 doc4 ns4 ss4 true false false buckets4 r4 =
      (Ok g_lowr, r4') ->
    forall (info : Info) (resp : Response.t) (v w : string) (a b : Z)
           (r0 : Registry),
      response info = Some resp ->
      content_length_of (Request.headers (request info)) = Some v ->
      content_length_of (Response.headers resp) = Some w ->
      PyInt.of_str v = Some a ->
      PyInt.of_str w = Some b ->
      map reading (new_samples r0 (f info r0)) =
      ([AttrStr (method info); AttrStr (modified_status info);
        AttrStr (modified_handler info)], Inc)
      :: map reading (new_samples r0 (g_in info r0))
      ++ map reading (new_samples r0 (g_out info r0))
      ++ map reading (new_samples r0 (g_highr info r0))
      ++ map reading (new_samples r0 (g_lowr info r0)).
Proof.
  intros admits ns ss highr lowr r r' f
         name1 doc1 ns1 ss1 r1 r1' g_in name2 doc2 ns2 ss2 r2 r2' g_out
         name3 doc3 ns3 ss3 buckets3 r3 r3' g_highr
         name4 doc4 ns4 ss4 buckets4 r4 r4' g_lowr
         C C1 C2 C3 C4 info resp v w a b r0 Hresp Hv Hw Ha Hb.
  apply default_inv in C
    as (TOTAL & IN_SIZE & OUT_SIZE & LATENCY_HIGHR & LATENCY_LOWR & -> & _
        & (_ & _ & Tl) & (_ & _ & Il) & (_ & _ & Ol) & (_ & _ & Hl & _)
        & (_ & _ & Ll & _)).
  apply request_size_inv in C1 as [-> _].
  apply response_size_inv in C2 as [-> _].
  apply latency_inv in C3 as (nb3 & _ & -> & _).
  apply latency_inv in C4 as (nb4 & _ & -> & _).
  rewrite (default_instrumentation_eq _ _ _ _ _ Tl Il Ol Hl Ll). cbv zeta.
  rewrite Hresp, !headers_get_content_length, Hv, Hw.
  rewrite (int_PyStr_Some _ _ Ha), (int_PyStr_Some _ _ Hb).
  rewrite request_size_instrumentation_eq, Hv.
  rewrite response_size_instrumentation_eq, Hresp, Hw.
  rewrite !observe_content_length_cases by reflexivity.
  rewrite (int_PyStr_Some _ _ Ha), (int_PyStr_Some _ _ Hb).
  rewrite !latency_instrumentation_ok by reflexivity.
  rewrite !new_samples_recorded.
  unfold new_samples. cbn [snd samples recorded].
  rewrite <- !app_assoc, skipn_length_app. reflexivity.
Qed.

Lemma default_bundles_single_metric_closures_witness :
  exists (f g_in g_out g_highr g_lowr : Info -> M unit) (r' : Registry),
    default unique_names "" "" default_latency_highr_buckets
      default_latency_lowr_buckets empty_registry = (Ok f, r')
    /\ map reading
         (new_samples empty_registry
            (f (info_of request_120 (Some response_340)) empty_registry)) =
       ([AttrStr "GET"; AttrStr "2xx"; AttrStr "/items"], Inc)
       :: map reading
            (new_samples empty_registry
               (g_in (info_of request_120 (Some response_340)) empty_registry))
       ++ map reading
            (new_samples empty_registry
               (g_out (info_of request_120 (Some response_340)) empty_registry))
       ++ map reading
            (new_samples empty_registry
               (g_highr (info_of request_120 (Some response_340)) empty_registry))
       ++ map reading
            (new_samples empty_registry
               (g_lowr (info_of request_120 (Some response_340)) empty_registry)).
Proof.
  destruct (default unique_names "" "" default_latency_highr_buckets
              default_latency_lowr_buckets empty_registry)
    as [[f|e] r'] eqn:C; [|discriminate C].
  destruct (request_size unique_names "http_request_size_bytes"
              "Content bytes of requests." "" "" true false false
              empty_registry) as [[g_in|e] r1'] eqn:C1; [|discriminate C1].
  destruct (response_size unique_names "http_response_size_bytes"
              "Content bytes of responses." "" "" true false false
              empty_registry) as [[g_out|e] r2'] eqn:C2; [|discriminate C2].
  destruct (latency unique_names "http_request_duration_highr_seconds"
              "Duration of HTTP requests in seconds" "" "" false false false
              default_latency_highr_buckets empty_registry)
    as [[g_highr|e] r3'] eqn:C3; [|discriminate C3].
  destruct (latency unique_names "http_request_duration_seconds"
              "Duration of HTTP requests in seconds" "" "" true false false
              default_latency_lowr_buckets empty_registry)
    as [[g_lowr|e] r4'] eqn:C4; [|discriminate C4].
  exists f, g_in, g_out, g_highr, g_lowr, r'. split; [reflexivity|].
  apply (default_bundles_single_metric_closures
           _ _ _ _ _ _ _ _ _ _ _ _ _ _ _ _ _ _ _ _ _ _ _ _ _ _ _ _ _ _ _ _ _ _ _ _
           _ _ C C1 C2 C3 C4 (info_of request_120 (Some response_340))
           response_340 "120" "340" 120%Z 340%Z empty_registry);
    reflexivity.
Defined.

(** X13. [response_size] is [request_size] applied to the response: for
    the same arguments, the closure of [response_size] does with an [Info]
    whose response exists what the closure of [request_size] does with the
    [Info] that carries the response's headers as its request's. *)
Theorem response_size_is_request_size_of_response :
  forall (admits : list Metric -> Metric -> bool) (name doc ns ss : string)
         (h m s : bool) (r1 r1' r2 r2' : Registry) (f g : Info -> M unit),
    request_size admits name doc ns ss h m s r1 = (Ok f, r1') ->
    response_size admits name doc ns ss h m s r2 = (Ok g, r2') ->
    forall (info : Info) (resp : Response.t) (r0 : Registry),
      response info = Some resp ->
      g info r0 =
      f (Build_Info' (Request.Build (Response.headers resp)) (response info)
           (method info) (modified_handler info) (modified_status info)
           (modified_duration info)) r0.
Proof.
  intros admits name doc ns ss h m s r1 r1' r2 r2' f g C1 C2 info resp r0 Hresp.
  apply request_size_inv in C1 as [-> _].
  apply response_size_inv in C2 as [-> _].
  rewrite request_size_instrumentation_eq, response_size_instrumentation_eq.
  rewrite Hresp. cbn [request Request.headers].
  destruct (content_length_of (Response.headers resp)); [|reflexivity].
  rewrite !observe_content_length_cases by reflexivity.
  reflexivity.
Qed.

Lemma response_size_is_request_size_of_response_witness :
  exists f g r1' r2',
    request_size unique_names "size" "Content bytes." "" "" true true false
      empty_registry = (Ok f, r1')
    /\ response_size unique_names "size" "Content bytes." "" "" true true false
         empty_registry = (Ok g, r2')
    /\ g (info_of request_120 (Some response_340)) empty_registry =
       f (info_of (Request.Build [("content-length", "340")])
            (Some response_340)) empty_registry.
Proof.
  destruct (request_size unique_names "size" "Content bytes." "" ""
              true true false empty_registry) as [[f|e] r1'] eqn:C1;
    [|discriminate C1].
  destruct (response_size unique_names "size" "Content bytes." "" ""
              true true false empty_registry) as [[g|e] r2'] eqn:C2;
    [|discriminate C2].
  exists f, g, r1', r2'. split; [reflexivity|]. split; [reflexivity|].
  apply (response_size_is_request_size_of_response _ _ _ _ _ _ _ _ _ _ _ _ _ _
           C1 C2 (info_of request_120 (Some response_340)) response_340).
  reflexivity.
Defined.
